(** * train_lgbm.py: the training job, its command line and its tracker run

    A shallow embedding of [src/train_lgbm.py].  The script is a single
    linear procedure over four external libraries (PySpark, pandas,
    scikit-learn / LightGBM and MLflow).  Python values, tables and the
    estimator objects are plain data; the statements of the function are
    a state-and-exception monad over the log of external calls; what the
    libraries compute is taken from an interface ([Libs]) and what the
    outside world holds (files, datasets, tracker faults) from a record
    ([World]). *)

From Stdlib Require Import String Ascii List ZArith Bool Lia Permutation.
From Stdlib Require Import Floats.PrimFloat.
Import ListNotations.
Local Open Scope string_scope.
Local Open Scope list_scope.
Set Warnings "-register-all,-inexact-float".

(** ** Python values and exceptions *)

(** What [yaml.full_load] can return and what is handed to the tracker:
    scalars, lists and string-keyed dicts.  A dict is an association list
    in insertion order; lookup takes the first binding of a key. *)
Inductive value : Type :=
| VNone
| VBool (b : bool)
| VInt (z : Z)
| VFloat (f : float)
| VStr (s : string)
| VList (l : list value)
| VDict (d : list (string * value)).

Inductive exn : Type :=
| KeyError (key : string)
| TypeError
| ValueError
| AnalysisException (column : string)
| OSError
| LibraryError (origin : string).

Definition result (A : Type) : Type := (exn + A)%type.

(** [d[k]] on a dict. *)
Fixpoint dict_get (d : list (string * value)) (k : string) : result value :=
  match d with
  | [] => inl (KeyError k)
  | (k', v) :: d' => if String.eqb k' k then inr v else dict_get d' k
  end.

(** [v[k]] with a string subscript: only a dict accepts it. *)
Definition getitem (v : value) (k : string) : result value :=
  match v with
  | VDict d => dict_get d k
  | _ => inl TypeError
  end.

(** [a + b].  Lists and strings concatenate.  Numbers add in Python too,
    but the only use of the sum here is as the argument of [select], which
    refuses a number with the same [TypeError]; the model raises it at the
    sum. *)
Definition py_add (a b : value) : result value :=
  match a, b with
  | VList x, VList y => inr (VList (x ++ y))
  | VStr x, VStr y => inr (VStr (x ++ y))
  | _, _ => inl TypeError
  end.

(** ** Tables

    One record serves for the Spark DataFrame and for the pandas DataFrame
    it is converted to: a header and rows of cells. *)
Record Frame : Type := mkFrame {
  columns : list string;
  rows : list (list value)
}.

Definition count (df : Frame) : Z := Z.of_nat (length (rows df)).

Fixpoint index_of (name : string) (cols : list string) : option nat :=
  match cols with
  | [] => None
  | c :: cs => if String.eqb c name then Some 0%nat
               else option_map S (index_of name cs)
  end.

(** Positions of every column carrying [name] (pandas keeps duplicates). *)
Fixpoint indices_of (name : string) (cols : list string) (i : nat) : list nat :=
  match cols with
  | [] => []
  | c :: cs => if String.eqb c name then i :: indices_of name cs (S i)
               else indices_of name cs (S i)
  end.

Definition project (idx : list nat) (row : list value) : list value :=
  map (fun i => nth i row VNone) idx.

(** Column labels carried by a Python value: a list of strings, or one
    string. *)
Fixpoint all_strings (l : list value) : result (list string) :=
  match l with
  | [] => inr []
  | VStr s :: l' =>
      match all_strings l' with
      | inr ss => inr (s :: ss)
      | inl e => inl e
      end
  | _ :: _ => inl TypeError
  end.

Definition as_labels (v : value) : result (list string) :=
  match v with
  | VList l => all_strings l
  | VStr s => inr [s]
  | _ => inl TypeError
  end.

Fixpoint resolve (names : list string) (cols : list string) : result (list nat) :=
  match names with
  | [] => inr []
  | n :: ns =>
      match index_of n cols with
      | None => inl (AnalysisException n)
      | Some i =>
          match resolve ns cols with
          | inr idx => inr (i :: idx)
          | inl e => inl e
          end
      end
  end.

(** [df.select(cols)] on plain column names: the named columns in the
    order asked for, or an analysis error at the first unknown name. *)
Definition select (cols : value) (df : Frame) : result Frame :=
  match as_labels cols with
  | inl e => inl e
  | inr names =>
      match resolve names (columns df) with
      | inl e => inl e
      | inr idx => inr (mkFrame names (map (project idx) (rows df)))
      end
  end.

Definition mem_string (s : string) (l : list string) : bool :=
  existsb (String.eqb s) l.

Fixpoint kept_positions (labels cols : list string) (i : nat) : list nat :=
  match cols with
  | [] => []
  | c :: cs => if mem_string c labels then kept_positions labels cs (S i)
               else i :: kept_positions labels cs (S i)
  end.

Fixpoint first_missing (labels cols : list string) : option string :=
  match labels with
  | [] => None
  | l :: ls => if mem_string l cols then first_missing ls cols else Some l
  end.

(** [df.drop(labels, axis=1)]: every column whose label is listed goes;
    an unknown label is a [KeyError]. *)
Definition drop (labels : value) (df : Frame) : result Frame :=
  match as_labels labels with
  | inl e => inl e
  | inr ls =>
      match first_missing ls (columns df) with
      | Some l => inl (KeyError l)
      | None =>
          inr (mkFrame (filter (fun c => negb (mem_string c ls)) (columns df))
                 (map (project (kept_positions ls (columns df) 0)) (rows df)))
      end
  end.

(** [df[labels]]: the labelled columns, in the order of the labels. *)
Definition frame_getitem (labels : value) (df : Frame) : result Frame :=
  match as_labels labels with
  | inl e => inl e
  | inr ls =>
      match first_missing ls (columns df) with
      | Some l => inl (KeyError l)
      | None =>
          let idx := flat_map (fun l => indices_of l (columns df) 0) ls in
          inr (mkFrame (map (fun i => nth i (columns df) "") idx)
                 (map (project idx) (rows df)))
      end
  end.

(** [.values.ravel()]: the cells in row-major order. *)
Definition ravel (df : Frame) : list value := concat (rows df).

(** ** Estimators and the search object *)

Record Estimator : Type := mkEstimator {
  est_class : string;
  est_params : list (string * value)
}.

(** [lgb.LGBMClassifier(n_jobs=2)] and [SimpleImputer()]. *)
Definition LGBMClassifier (n_jobs : Z) : Estimator :=
  mkEstimator "LGBMClassifier" [("n_jobs", VInt n_jobs)].

Definition SimpleImputer : Estimator := mkEstimator "SimpleImputer" [].

(** [Pipeline(steps)]: named stages, in order. *)
Record Pipeline : Type := mkPipeline {
  steps : list (string * Estimator)
}.

(** The keyword arguments of [RandomizedSearchCV(...)] as the script gives
    them. *)
Record RandomizedSearchCV : Type := mkSearch {
  estimator : Pipeline;
  param_distributions : list (string * value);
  scoring : string;
  n_jobs : Z;
  n_iter : nat;
  random_state : Z;
  cv : Z
}.

(** A pipeline after [fit]: the stages and what was learnt. *)
Record Fitted : Type := mkFitted {
  fitted_pipeline : Pipeline;
  fitted_state : value
}.

(** The fitted search object: the attributes the script reads, and from
    [cv_results_] the candidates the search evaluated (['params']), their
    mean cross-validated scores (['mean_test_score']) and the position of
    the best one. *)
Record CVModel : Type := mkCVModel {
  best_estimator_ : Fitted;
  best_score_ : float;
  best_params_ : list (string * value);
  cv_results_params : list (list (string * value));
  mean_test_score : list float;
  best_index_ : nat
}.

(** [run.info]. *)
Record RunInfo : Type := mkRunInfo {
  run_uuid : string;
  experiment_id : string
}.

(** ** The log of external calls *)

Inductive Event : Type :=
| EvOpenYaml (path : string)
| EvGetOrCreate
| EvReadParquet (uri : option string)
| EvCache
| EvCount
| EvToPandas
| EvStartRun
| EvEndRun (status : string)
| EvLogMetric (key : string) (v : value)
| EvLogParam (key : string) (v : value)
| EvLogMetrics (d : list (string * value))
| EvLogModel (model : Fitted) (artifact_path : string)
| EvPrint (fmt : string) (args : list value).

(** Every external call leaves one entry: it returned, or it raised. *)
Inductive outcome : Type :=
| Returned
| Raised (e : exn).

Definition entry : Type := (Event * outcome)%type.
Definition trace : Type := list entry.

(** ** What the libraries compute and what the world holds *)

(** The library routines whose results the script consumes.  They are
    functions of their arguments; each may raise. *)
Class Libs : Type := {
  randomSplit : Frame -> list float -> Z -> result (Frame * Frame);
  fit : RandomizedSearchCV -> Frame -> list value -> result CVModel;
  predict : Fitted -> Frame -> result (list value);
  roc_auc_score : Frame -> list value -> result float;
  repr_params : Estimator -> string;
  float_of_string : string -> option float
}.

(** The surroundings of one invocation: the YAML document behind a path,
    the dataset behind a location, the run the tracker hands out, and
    which effectful call raises (given the calls made so far). *)
Record World : Type := mkWorld {
  yaml_file : string -> result value;
  parquet : option string -> result Frame;
  active_run : RunInfo;
  fault : trace -> Event -> option exn
}.

(** ** The monad of the script: exceptions over the call log *)

Definition M (A : Type) : Type := trace -> result A * trace.

Definition ret {A : Type} (a : A) : M A := fun tr => (inr a, tr).

Definition bind {A B : Type} (m : M A) (k : A -> M B) : M B :=
  fun tr =>
    match m tr with
    | (inr a, tr') => k a tr'
    | (inl e, tr') => (inl e, tr')
    end.

Declare Scope py_scope.
Delimit Scope py_scope with py.
Notation "x <- c1 ;; c2" := (bind c1 (fun x => c2))
  (at level 61, c1 at next level, right associativity) : py_scope.
Notation "' pat <- c1 ;; c2" := (bind c1 (fun x => match x with pat => c2 end))
  (at level 61, pat pattern, c1 at next level, right associativity) : py_scope.
Notation "c1 ;; c2" := (bind c1 (fun _ => c2))
  (at level 61, right associativity) : py_scope.
Local Open Scope py_scope.

(** A pure step that may raise. *)
Definition lift {A : Type} (r : result A) : M A := fun tr => (r, tr).

Definition outcome_of {A : Type} (r : result A) : outcome :=
  match r with
  | inl e => Raised e
  | inr _ => Returned
  end.

(** An external call whose result the world decides. *)
Definition call {A : Type} (ev : Event) (r : result A) : M A :=
  fun tr => (r, tr ++ [(ev, outcome_of r)]).

Section Script.

Context {L : Libs}.
Variable W : World.

(** An external call made for its effect. *)
Definition effect (ev : Event) : M unit :=
  fun tr =>
    match fault W tr ev with
    | Some e => (inl e, tr ++ [(ev, Raised e)])
    | None => (inr tt, tr ++ [(ev, Returned)])
    end.

(** [with mlflow.start_run() as run: body].  [__exit__] ends the run with
    status FINISHED when the body returned and FAILED when it raised, and
    lets the body's exception through; an exception of [end_run] itself
    takes its place. *)
Definition with_run {A : Type} (body : RunInfo -> M A) : M A :=
  fun tr =>
    match effect EvStartRun tr with
    | (inl e, tr1) => (inl e, tr1)
    | (inr _, tr1) =>
        match body (active_run W) tr1 with
        | (inr a, tr2) =>
            match effect (EvEndRun "FINISHED") tr2 with
            | (inr _, tr3) => (inr a, tr3)
            | (inl e, tr3) => (inl e, tr3)
            end
        | (inl e, tr2) =>
            match effect (EvEndRun "FAILED") tr2 with
            | (inr _, tr3) => (inl e, tr3)
            | (inl e', tr3) => (inl e', tr3)
            end
        end
    end.

(** [for x in xs: f(x)]. *)
Fixpoint for_each {A : Type} (xs : list A) (f : A -> M unit) : M unit :=
  match xs with
  | [] => ret tt
  | x :: xs' => f x ;; for_each xs' f
  end.

(** [s.split(sep)[0]]. *)
Fixpoint split_head (sep : ascii) (s : string) : string :=
  match s with
  | EmptyString => EmptyString
  | String c s' =>
      if Ascii.eqb c sep then EmptyString else String c (split_head sep s')
  end.

(** [str(est)]: the class name and the parameters in parentheses; how the
    parameters print is the library's business. *)
Definition str_estimator (est : Estimator) : string :=
  est_class est ++ "(" ++ repr_params est ++ ")".

Definition seed : Z := 7.

(** Lines 27-31. *)
Definition load_config (config : string) : M (value * value * value) :=
  loaded_config <- call (EvOpenYaml config) (yaml_file W config) ;;
  features <- lift (getitem loaded_config "features") ;;
  target <- lift (getitem loaded_config "target") ;;
  ret (loaded_config, features, target).

(** Lines 32-39. *)
Definition split_dataset (loans_parquet_uri : option string)
    (split_prop : float) : M (Frame * Frame) :=
  effect EvGetOrCreate ;;
  loans_df <- call (EvReadParquet loans_parquet_uri)
                (parquet W loans_parquet_uri) ;;
  parts <- lift (randomSplit loans_df
                   [split_prop; (1 - split_prop)%float] seed) ;;
  effect EvCache ;;
  effect EvCache ;;
  ret parts.

(** Lines 49 and 53: [df.select(features + target).toPandas()]. *)
Definition materialize (features target : value) (df : Frame) : M Frame :=
  cols <- lift (py_add features target) ;;
  selected <- lift (select cols df) ;;
  effect EvToPandas ;;
  ret selected.

(** Lines 57-64. *)
Definition param_grid (param_space : value) : result (list (string * value)) :=
  match getitem param_space "max_depth" with
  | inl e => inl e
  | inr max_depth =>
  match getitem param_space "gamma" with
  | inl e => inl e
  | inr gamma =>
  match getitem param_space "min_child_weight" with
  | inl e => inl e
  | inr min_child_weight =>
  match getitem param_space "learning_rate" with
  | inl e => inl e
  | inr learning_rate =>
  match getitem param_space "colsample_bytree" with
  | inl e => inl e
  | inr colsample_bytree =>
  match getitem param_space "num_leaves" with
  | inl e => inl e
  | inr num_leaves =>
      inr [("__max_depth", max_depth);
           ("__min_split_gain", gamma);
           ("__min_child_weight", min_child_weight);
           ("__learning_rate", learning_rate);
           ("__colsample_bytree", colsample_bytree);
           ("__num_leaves", num_leaves)]
  end end end end end end.

(** Lines 66-75. *)
Definition crossval (lgbm : Estimator) (grid : list (string * value))
    : RandomizedSearchCV :=
  let steps := [("imputation", SimpleImputer); ("", lgbm)] in
  let pipeline := mkPipeline steps in
  mkSearch pipeline grid "roc_auc" 4 100 seed 5.

(** Lines 42-108, the body of the [with] block. *)
Definition run_body (loaded_config features target : value)
    (split_prop : float) (train_df test_df : Frame) (run : RunInfo)
    : M CVModel :=
  effect EvCount ;;
  effect (EvLogMetric "training_nrows" (VInt (count train_df))) ;;
  effect EvCount ;;
  effect (EvLogMetric "test_nrows" (VInt (count test_df))) ;;
  effect EvCount ;;
  effect EvCount ;;
  effect (EvPrint "Training: {0}, test: {1}"
            [VInt (count train_df); VInt (count test_df)]) ;;
  train_df <- materialize features target train_df ;;
  test_df <- materialize features target test_df ;;
  let lgbm := LGBMClassifier 2 in
  param_space <- lift (getitem loaded_config "parameter_space") ;;
  grid <- lift (param_grid param_space) ;;
  let search := crossval lgbm grid in
  effect (EvLogParam "features" features) ;;
  effect (EvLogParam "split_prop" (VFloat split_prop)) ;;
  X <- lift (drop target train_df) ;;
  y <- lift (frame_getitem target train_df) ;;
  cvModel <- lift (fit search X (ravel y)) ;;
  effect (EvLogModel (best_estimator_ cvModel)
            ("best-5-fold-cross-validated-"
               ++ split_head "("%char (str_estimator lgbm))) ;;
  X_test <- lift (drop target test_df) ;;
  y_pred <- lift (predict (best_estimator_ cvModel) X_test) ;;
  effect (EvPrint "Train ROC: {:.3f}" [VFloat (best_score_ cvModel)]) ;;
  y_test <- lift (frame_getitem target test_df) ;;
  test_roc <- lift (roc_auc_score y_test y_pred) ;;
  effect (EvPrint "Test ROC: {:.3f}" [VFloat test_roc]) ;;
  effect (EvLogMetrics [("ROC_AUC_train", VFloat (best_score_ cvModel));
                        ("ROC_AUC_test", VFloat test_roc)]) ;;
  for_each (map fst (best_params_ cvModel))
    (fun key =>
       v <- lift (dict_get (best_params_ cvModel) key) ;;
       effect (EvLogParam key v)) ;;
  effect (EvPrint "Inside MLflow Run with run_id {} and experiment_id {}"
            [VStr (run_uuid run); VStr (experiment_id run)]) ;;
  ret cvModel.

Definition fit_sklearn_crossvalidator (loans_parquet_uri : option string)
    (config : string) (split_prop : float) : M CVModel :=
  '(loaded_config, features, target) <- load_config config ;;
  '(train_df, test_df) <- split_dataset loans_parquet_uri split_prop ;;
  with_run (run_body loaded_config features target split_prop
              train_df test_df).

(** ** The command line (lines 110-119) *)

Inductive arg_type : Type :=
| AsStr
| AsFloat.

Record Action : Type := mkAction {
  option_strings : list string;
  dest : string;
  default : value;
  type_ : arg_type;
  required : bool
}.

Definition dashed (a : string) : bool :=
  match a with
  | String c _ => Ascii.eqb c "-"%char
  | EmptyString => false
  end.

Fixpoint lstrip_dashes (s : string) : string :=
  match s with
  | String c s' => if Ascii.eqb c "-"%char then lstrip_dashes s' else s
  | EmptyString => EmptyString
  end.

Definition is_long (a : string) : bool :=
  match a with
  | String c1 (String c2 _) => Ascii.eqb c1 "-"%char && Ascii.eqb c2 "-"%char
  | _ => false
  end.

Fixpoint underscored (s : string) : string :=
  match s with
  | String c s' =>
      String (if Ascii.eqb c "-"%char then "_"%char else c) (underscored s')
  | EmptyString => EmptyString
  end.

(** The attribute name argparse derives from the option strings: the
    first long one, else the first one, without its dashes. *)
Definition dest_of (flags : list string) : string :=
  match find is_long flags with
  | Some f => underscored (lstrip_dashes f)
  | None => underscored (lstrip_dashes (hd "" flags))
  end.

(** [parser.add_argument(flags..., default=, type=, required=)]. *)
Definition add_argument (flags : list string) (default : value)
    (type_ : arg_type) (required : bool) : Action :=
  mkAction flags (dest_of flags) default type_ required.

(** Lines 111-114.  No call passes [required], so it keeps argparse's
    default [False]; [default] is [None] and [type] is [str] where they
    are not given. *)
Definition parser : list Action :=
  [ add_argument ["-u"; "--loans_parquet_uri"] VNone AsStr false;
    add_argument ["-c"; "--config"] (VStr "config.yaml") AsStr false;
    add_argument ["-s"; "--split_prop"] (VFloat 0.8) AsFloat false ].

Definition Namespace : Type := list (string * value).

Fixpoint setattr (ns : Namespace) (name : string) (v : value) : Namespace :=
  match ns with
  | [] => [(name, v)]
  | (k, w) :: ns' =>
      if String.eqb k name then (k, v) :: ns' else (k, w) :: setattr ns' name v
  end.

Definition is_help (a : string) : bool :=
  String.eqb a "-h" || String.eqb a "--help".

Definition find_action (p : list Action) (a : string) : option Action :=
  find (fun act => mem_string a (option_strings act)) p.

Definition convert (t : arg_type) (s : string) : option value :=
  match t with
  | AsStr => Some (VStr s)
  | AsFloat => option_map VFloat (float_of_string s)
  end.

(** How [parse_args] ends: a namespace, [SystemExit] (0 after the help
    text, 2 after a usage error), or a command line outside the forms
    modelled here. *)
Inductive parse_outcome : Type :=
| Parsed (ns : Namespace)
| Exit (code : Z)
| Unmodelled.

(** The command lines modelled: every word that starts with a dash is an
    option string spelt out in full.  Abbreviated long options,
    [--opt=value], [-uVALUE], [--] and negative numbers are left out. *)
Definition modelled (p : list Action) (argv : list string) : bool :=
  forallb (fun a => negb (dashed a) || is_help a
                    || match find_action p a with Some _ => true | None => false end)
    argv.

(** One pass over the words, left to right.  An option takes the next
    word as its value, which must not be an option itself; the value is
    converted by the option's [type]; a later occurrence overwrites an
    earlier one.  A word that belongs to no option is remembered and
    reported at the end, after the check for required options. *)
Fixpoint consume (p : list Action) (argv : list string) (ns : Namespace)
    (seen : list string) (extras : bool) : parse_outcome :=
  match argv with
  | [] =>
      if existsb (fun act => required act && negb (mem_string (dest act) seen)) p
      then Exit 2
      else if extras then Exit 2 else Parsed ns
  | a :: rest =>
      if is_help a then Exit 0
      else
        match find_action p a with
        | None => consume p rest ns seen true
        | Some act =>
            match rest with
            | [] => Exit 2
            | v :: rest' =>
                if dashed v then Exit 2
                else
                  match convert (type_ act) v with
                  | None => Exit 2
                  | Some x =>
                      consume p rest' (setattr ns (dest act) x)
                        (dest act :: seen) extras
                  end
            end
        end
  end.

Definition initial_namespace (p : list Action) : Namespace :=
  fold_left (fun ns act => setattr ns (dest act) (default act)) p [].

Definition parse_args (argv : list string) : parse_outcome :=
  if modelled parser argv
  then consume parser argv (initial_namespace parser) [] false
  else Unmodelled.

(** [args.name]. *)
Definition getattr (ns : Namespace) (name : string) : value :=
  match dict_get ns name with
  | inr v => v
  | inl _ => VNone
  end.


End Script.

(** ** A reference instance

    One concrete set of library routines and one concrete world, on which
    the script runs to completion.  The search enumerates the grid in
    index order, the way scikit-learn's [ParameterGrid] decodes an index,
    keeps at most [n_iter] points, scores every one 0.5 and reports the
    first as best. *)
Module Reference.

Fixpoint candidate_lists (grid : list (string * value))
    : result (list (string * list value)) :=
  match grid with
  | [] => inr []
  | (k, VList vs) :: g =>
      match candidate_lists g with
      | inr r => inr ((k, vs) :: r)
      | inl e => inl e
      end
  | _ :: _ => inl TypeError
  end.

Definition grid_size (g : list (string * list value)) : nat :=
  fold_right (fun kv acc => (length (snd kv) * acc)%nat) 1%nat g.

Fixpoint grid_point (g : list (string * list value)) (i : nat)
    : list (string * value) :=
  match g with
  | [] => []
  | (k, vs) :: g' =>
      (k, nth (i mod length vs) vs VNone) :: grid_point g' (i / length vs)
  end.

Definition search (s : RandomizedSearchCV) (X : Frame) (y : list value)
    : result CVModel :=
  match candidate_lists (param_distributions s) with
  | inl e => inl e
  | inr g =>
      let n := Nat.min (n_iter s) (grid_size g) in
      match map (grid_point g) (seq 0 n) with
      | [] => inl ValueError
      | best :: others =>
          inr (mkCVModel (mkFitted (estimator s) (VDict best)) 0.5
                 best (best :: others)
                 (map (fun _ => 0.5%float) (best :: others)) 0)
      end
  end.

Fixpoint alternate {A : Type} (l : list A) (phase : bool) : list A * list A :=
  match l with
  | [] => ([], [])
  | x :: l' =>
      let (a, b) := alternate l' (negb phase) in
      if phase then (a, x :: b) else (x :: a, b)
  end.

Definition split (df : Frame) (weights : list float) (seed : Z)
    : result (Frame * Frame) :=
  if existsb (fun w => PrimFloat.ltb w 0) weights then inl ValueError
  else
    let (a, b) := alternate (rows df) (Z.odd seed) in
    inr (mkFrame (columns df) a, mkFrame (columns df) b).

Definition parse_float (s : string) : option float :=
  if String.eqb s "0.8" then Some 0.8%float
  else if String.eqb s "0.5" then Some 0.5%float
  else None.

#[export] Instance libs : Libs := {
  randomSplit := split;
  fit := search;
  predict := fun _ X => inr (map (fun _ => VInt 0) (rows X));
  roc_auc_score := fun _ _ => inr 0.5%float;
  repr_params := fun _ => "n_jobs=2";
  float_of_string := parse_float
}.

Definition config_yaml : value :=
  VDict
    [("features", VList [VStr "f1"; VStr "f2"]);
     ("target", VList [VStr "target"]);
     ("parameter_space",
      VDict [("max_depth", VList [VInt 3; VInt 5]);
             ("gamma", VList [VInt 0; VFloat 0.1]);
             ("min_child_weight", VList [VInt 1]);
             ("learning_rate", VList [VFloat 0.1]);
             ("colsample_bytree", VList [VFloat 1.0]);
             ("num_leaves", VList [VInt 31])])].

Definition loans : Frame :=
  mkFrame ["id"; "f1"; "f2"; "target"]
    [[VInt 1; VFloat 0.5; VInt 3; VInt 0];
     [VInt 2; VFloat 1.5; VInt 4; VInt 1];
     [VInt 3; VFloat 2.5; VNone; VInt 0];
     [VInt 4; VFloat 3.5; VInt 6; VInt 1];
     [VInt 5; VFloat 4.5; VInt 7; VInt 1]].

Definition world : World :=
  mkWorld
    (fun path => if String.eqb path "config.yaml" then inr config_yaml
                 else inl OSError)
    (fun uri => match uri with
                | Some "loans.parquet" => inr loans
                | _ => inl (LibraryError "spark.read.parquet")
                end)
    (mkRunInfo "run-1" "0")
    (fun _ _ => None).

Definition run : result CVModel * trace :=
  fit_sklearn_crossvalidator world (Some "loans.parquet") "config.yaml" 0.8 [].

(** The same world with a tracker that refuses the model artifact. *)
Definition world_refusing_model : World :=
  mkWorld (yaml_file world) (parquet world) (active_run world)
    (fun _ ev => match ev with
                 | EvLogModel _ _ => Some (LibraryError "mlflow.sklearn.log_model")
                 | _ => None
                 end).


(** An empty YAML document loads as [None]. *)
Definition world_empty_config : World :=
  mkWorld (fun _ => inr VNone) (parquet world) (active_run world) (fault world).

(** A configuration without [parameter_space]. *)
Definition world_without_space : World :=
  mkWorld
    (fun _ => inr (VDict [("features", VList [VStr "f1"; VStr "f2"]);
                          ("target", VList [VStr "target"])]))
    (parquet world) (active_run world) (fault world).

(** A dataset that differs from [loans] in its first, third and fifth
    row: with seed 7 the split sends these to the test partition. *)
Definition loans_other_test : Frame :=
  mkFrame ["id"; "f1"; "f2"; "target"]
    [[VInt 6; VFloat 9.5; VInt 9; VInt 1];
     [VInt 2; VFloat 1.5; VInt 4; VInt 1];
     [VInt 7; VFloat 8.5; VInt 8; VInt 0];
     [VInt 4; VFloat 3.5; VInt 6; VInt 1];
     [VInt 8; VFloat 7.5; VNone; VInt 0]].

Definition world_other_test : World :=
  mkWorld (yaml_file world) (fun _ => inr loans_other_test)
    (active_run world) (fault world).

(** Libraries whose search raises, and libraries whose metric raises (as
    [roc_auc_score] does on a test partition with one class only). *)
Definition libs_failing_search : Libs := {|
  randomSplit := split;
  fit := fun _ _ _ => inl (LibraryError "RandomizedSearchCV.fit");
  predict := fun _ X => inr (map (fun _ => VInt 0) (rows X));
  roc_auc_score := fun _ _ => inr 0.5%float;
  repr_params := fun _ => "n_jobs=2";
  float_of_string := parse_float
|}.

Definition libs_one_class : Libs := {|
  randomSplit := split;
  fit := search;
  predict := fun _ X => inr (map (fun _ => VInt 0) (rows X));
  roc_auc_score := fun _ _ => inl ValueError;
  repr_params := fun _ => "n_jobs=2";
  float_of_string := parse_float
|}.

End Reference.

(** ** Vocabulary of the statements *)

(** Calls that write a metric, a parameter or a model to the tracker. *)
Definition is_log (ev : Event) : bool :=
  match ev with
  | EvLogMetric _ _ | EvLogParam _ _ | EvLogMetrics _ | EvLogModel _ _ => true
  | _ => false
  end.

(** Calls that open or close a run. *)
Definition is_boundary (ev : Event) : bool :=
  match ev with
  | EvStartRun | EvEndRun _ => true
  | _ => false
  end.

Definition is_tracker (ev : Event) : bool := is_log ev || is_boundary ev.

(** The tracker's view of a log: its own calls, in order. *)
Definition tracker_calls (tr : trace) : trace :=
  filter (fun en => is_tracker (fst en)) tr.

Definition is_read (ev : Event) : bool :=
  match ev with
  | EvReadParquet _ => true
  | _ => false
  end.

(** The calls of the loop of lines 98-99 over a dict [d]. *)
Definition log_each_param (d : list (string * value)) : trace :=
  map (fun key => (EvLogParam key (getattr d key), Returned)) (map fst d).

(** The values of the local variables of a run that returned. *)
Record Locals : Type := mkLocals {
  l_loaded_config : value;
  l_features : value;
  l_target : value;
  l_loans_df : Frame;
  l_train_part : Frame;
  l_test_part : Frame;
  l_train_df : Frame;
  l_test_df : Frame;
  l_param_space : value;
  l_param_grid : list (string * value);
  l_X : Frame;
  l_y : Frame;
  l_X_test : Frame;
  l_y_pred : list value;
  l_y_test : Frame;
  l_test_roc : float
}.

Definition artifact_name : string :=
  "best-5-fold-cross-validated-LGBMClassifier".

(** The calls of a run that returned [m] with locals [v], in order. *)
Definition calls_of (W : World) (uri : option string) (config : string)
    (split_prop : float) (m : CVModel) (v : Locals) : trace :=
  [ (EvOpenYaml config, Returned);
    (EvGetOrCreate, Returned);
    (EvReadParquet uri, Returned);
    (EvCache, Returned);
    (EvCache, Returned);
    (EvStartRun, Returned);
    (EvCount, Returned);
    (EvLogMetric "training_nrows" (VInt (count (l_train_part v))), Returned);
    (EvCount, Returned);
    (EvLogMetric "test_nrows" (VInt (count (l_test_part v))), Returned);
    (EvCount, Returned);
    (EvCount, Returned);
    (EvPrint "Training: {0}, test: {1}"
       [VInt (count (l_train_part v)); VInt (count (l_test_part v))], Returned);
    (EvToPandas, Returned);
    (EvToPandas, Returned);
    (EvLogParam "features" (l_features v), Returned);
    (EvLogParam "split_prop" (VFloat split_prop), Returned);
    (EvLogModel (best_estimator_ m) artifact_name, Returned);
    (EvPrint "Train ROC: {:.3f}" [VFloat (best_score_ m)], Returned);
    (EvPrint "Test ROC: {:.3f}" [VFloat (l_test_roc v)], Returned);
    (EvLogMetrics [("ROC_AUC_train", VFloat (best_score_ m));
                   ("ROC_AUC_test", VFloat (l_test_roc v))], Returned) ]
  ++ log_each_param (best_params_ m)
  ++ [ (EvPrint "Inside MLflow Run with run_id {} and experiment_id {}"
          [VStr (run_uuid (active_run W)); VStr (experiment_id (active_run W))],
        Returned);
       (EvEndRun "FINISHED", Returned) ].

(** How the locals of a run that returned [m] hang together. *)
Definition explains {L : Libs} (W : World) (uri : option string)
    (config : string) (split_prop : float) (m : CVModel) (v : Locals) : Prop :=
  yaml_file W config = inr (l_loaded_config v) /\
  getitem (l_loaded_config v) "features" = inr (l_features v) /\
  getitem (l_loaded_config v) "target" = inr (l_target v) /\
  parquet W uri = inr (l_loans_df v) /\
  randomSplit (l_loans_df v) [split_prop; (1 - split_prop)%float] 7
    = inr (l_train_part v, l_test_part v) /\
  (exists cols, py_add (l_features v) (l_target v) = inr cols /\
     select cols (l_train_part v) = inr (l_train_df v) /\
     select cols (l_test_part v) = inr (l_test_df v)) /\
  getitem (l_loaded_config v) "parameter_space" = inr (l_param_space v) /\
  param_grid (l_param_space v) = inr (l_param_grid v) /\
  drop (l_target v) (l_train_df v) = inr (l_X v) /\
  frame_getitem (l_target v) (l_train_df v) = inr (l_y v) /\
  fit (crossval (LGBMClassifier 2) (l_param_grid v)) (l_X v) (ravel (l_y v))
    = inr m /\
  drop (l_target v) (l_test_df v) = inr (l_X_test v) /\
  predict (best_estimator_ m) (l_X_test v) = inr (l_y_pred v) /\
  frame_getitem (l_target v) (l_test_df v) = inr (l_y_test v) /\
  roc_auc_score (l_y_test v) (l_y_pred v) = inr (l_test_roc v).

(** A candidate drawn from a grid: it binds the keys of the grid, each to
    a member of the list the grid gives for that key. *)
Definition drawn_from (grid c : list (string * value)) : Prop :=
  Permutation (map fst c) (map fst grid) /\
  forall k x, In (k, x) c -> exists xs, In (k, VList xs) grid /\ In x xs.

(** What scikit-learn documents for a randomized search over lists: at
    most [n_iter] candidates are evaluated, each drawn from the grid, and
    the best parameters are those of one of them. *)
Definition SearchContract (L : Libs) : Prop :=
  forall s X y m,
    fit s X y = inr m ->
    (length (cv_results_params m) <= n_iter s)%nat /\
    Forall (drawn_from (param_distributions s)) (cv_results_params m) /\
    In (best_params_ m) (cv_results_params m).

(** What scikit-learn documents for the attributes of a fitted search
    with one scorer: [best_index_] is the position of the best candidate,
    [best_params_] and [best_score_] are its parameters and its mean
    cross-validated score, and no candidate has a higher mean score
    (a candidate whose fits failed has score NaN and ranks last). *)
Definition RankingContract (L : Libs) : Prop :=
  forall s X y m,
    fit s X y = inr m ->
    nth_error (cv_results_params m) (best_index_ m) = Some (best_params_ m) /\
    nth_error (mean_test_score m) (best_index_ m) = Some (best_score_ m) /\
    Forall (fun sc => PrimFloat.is_nan sc = true \/
                      PrimFloat.leb sc (best_score_ m) = true)
      (mean_test_score m).

(** Lines 58-63 read as a table: grid key, configuration key. *)
Definition searched_as : list (string * string) :=
  [ ("__max_depth", "max_depth");
    ("__min_split_gain", "gamma");
    ("__min_child_weight", "min_child_weight");
    ("__learning_rate", "learning_rate");
    ("__colsample_bytree", "colsample_bytree");
    ("__num_leaves", "num_leaves") ].

(** The name under which a parameter of a pipeline stage is addressed. *)
Definition nested_key (stage param : string) : string :=
  stage ++ "__" ++ param.

(** A computation only ever appends to the log, and what it appends
    satisfies [P]. *)
Definition adds {A : Type} (P : entry -> Prop) (c : M A) : Prop :=
  forall tr r tr', c tr = (r, tr') ->
    exists d, tr' = tr ++ d /\ Forall P d.

(** A command line that never names one of [flags]. *)
Definition omits (flags argv : list string) : Prop :=
  forall a, In a argv -> ~ In a flags.

(** The keys under which parameters were logged, in order. *)
Definition logged_param_keys (tr : trace) : list string :=
  flat_map (fun en => match fst en with
                      | EvLogParam key _ => [key]
                      | _ => []
                      end) tr.

(** The parameter names of the classifier that the grid addresses. *)
Definition searched_params : list string :=
  ["max_depth"; "min_split_gain"; "min_child_weight"; "learning_rate";
   "colsample_bytree"; "num_leaves"].

(** Entries that may precede the opening of the run: no tracker call. *)
Definition outside_run (en : entry) : Prop := is_tracker (fst en) = false.

(** Entries that may occur while the run is open: anything but a call
    that opens or closes a run. *)
Definition inside_run (en : entry) : Prop := is_boundary (fst en) = false.

(** The log of an invocation in which no run was opened: no tracker call
    at all, except possibly a last [start_run] that raised. *)
Definition never_opened (tr : trace) : Prop :=
  Forall outside_run tr \/
  exists pre e, tr = pre ++ [(EvStartRun, Raised e)] /\ Forall outside_run pre.

(** The log of an invocation that opened a run: nothing for the tracker
    before [start_run] returned, then the calls of the body, none of which
    opens or closes a run, then one [end_run], last of all. *)
Definition scoped (tr : trace) (status : string) (closing : outcome) : Prop :=
  exists pre body,
    tr = pre ++ [(EvStartRun, Returned)] ++ body ++ [(EvEndRun status, closing)] /\
    Forall outside_run pre /\
    Forall inside_run body.

(** ** Vocabulary of the further properties *)

(** A world in which no effectful call raises. *)
Definition quiet (W : World) : Prop := forall tr ev, fault W tr ev = None.

(** The locals of an invocation that got as far as opening the run
    (lines 27-39). *)
Definition reaches_run {L : Libs} (W : World) (uri : option string)
    (config : string) (split_prop : float) (v : Locals) : Prop :=
  yaml_file W config = inr (l_loaded_config v) /\
  getitem (l_loaded_config v) "features" = inr (l_features v) /\
  getitem (l_loaded_config v) "target" = inr (l_target v) /\
  parquet W uri = inr (l_loans_df v) /\
  randomSplit (l_loans_df v) [split_prop; (1 - split_prop)%float] 7
    = inr (l_train_part v, l_test_part v).

(** ... that got as far as the search object (lines 27-75). *)
Definition reaches_search {L : Libs} (W : World) (uri : option string)
    (config : string) (split_prop : float) (v : Locals) : Prop :=
  reaches_run W uri config split_prop v /\
  (exists cols, py_add (l_features v) (l_target v) = inr cols /\
     select cols (l_train_part v) = inr (l_train_df v) /\
     select cols (l_test_part v) = inr (l_test_df v)) /\
  getitem (l_loaded_config v) "parameter_space" = inr (l_param_space v) /\
  param_grid (l_param_space v) = inr (l_param_grid v).

(** ... and whose search returned [m] (lines 27-84). *)
Definition reaches_model {L : Libs} (W : World) (uri : option string)
    (config : string) (split_prop : float) (m : CVModel) (v : Locals) : Prop :=
  reaches_search W uri config split_prop v /\
  drop (l_target v) (l_train_df v) = inr (l_X v) /\
  frame_getitem (l_target v) (l_train_df v) = inr (l_y v) /\
  fit (crossval (LGBMClassifier 2) (l_param_grid v)) (l_X v) (ravel (l_y v))
    = inr m.

(** The tracker calls common to every invocation that opened a run and
    counted its partitions (lines 41-43). *)
Definition row_count_calls (v : Locals) : trace :=
  [ (EvStartRun, Returned);
    (EvLogMetric "training_nrows" (VInt (count (l_train_part v))), Returned);
    (EvLogMetric "test_nrows" (VInt (count (l_test_part v))), Returned) ].

(** ... and those of lines 79-80. *)
Definition input_param_calls (v : Locals) (split_prop : float) : trace :=
  [ (EvLogParam "features" (l_features v), Returned);
    (EvLogParam "split_prop" (VFloat split_prop), Returned) ].

(** The keys of [parameter_space] that lines 58-63 subscript, in the
    order in which they do. *)
Definition hyperparameters : list string :=
  ["max_depth"; "gamma"; "min_child_weight"; "learning_rate";
   "colsample_bytree"; "num_leaves"].

Definition is_open (ev : Event) : bool :=
  match ev with
  | EvOpenYaml _ => true
  | _ => false
  end.

(** Entries that are neither the loading of a file nor the reading of a
    dataset. *)
Definition no_input (en : entry) : Prop :=
  is_open (fst en) = false /\ is_read (fst en) = false.

(** The locals of a run of the script in a given world, computed stage by
    stage; a stage that raises leaves a default. *)
Definition ok {A : Type} (d : A) (r : result A) : A :=
  match r with
  | inr a => a
  | inl _ => d
  end.

Definition locals_of {L : Libs} (W : World) (uri : option string)
    (config : string) (p : float) : Locals :=
  let nothing := mkFrame [] [] in
  let loaded := ok VNone (yaml_file W config) in
  let features := ok VNone (getitem loaded "features") in
  let target := ok VNone (getitem loaded "target") in
  let loans_df := ok nothing (parquet W uri) in
  let parts := ok (nothing, nothing)
                 (randomSplit loans_df [p; (1 - p)%float] 7) in
  let cols := ok VNone (py_add features target) in
  let train_df := ok nothing (select cols (fst parts)) in
  let test_df := ok nothing (select cols (snd parts)) in
  let space := ok VNone (getitem loaded "parameter_space") in
  let grid := ok [] (param_grid space) in
  let X := ok nothing (drop target train_df) in
  let y := ok nothing (frame_getitem target train_df) in
  let X_test := ok nothing (drop target test_df) in
  let y_test := ok nothing (frame_getitem target test_df) in
  let y_pred :=
    match fit (crossval (LGBMClassifier 2) grid) X (ravel y) with
    | inr m => ok [] (predict (best_estimator_ m) X_test)
    | inl _ => []
    end in
  mkLocals loaded features target loans_df (fst parts) (snd parts)
    train_df test_df space grid X y X_test y_pred y_test
    (ok 0%float (roc_auc_score y_test y_pred)).

(** ** Stepping through the monad *)

Section Steps.

Context {L : Libs}.
Variable W : World.

Lemma bind_returns {A B : Type} (c : M A) (k : A -> M B) tr b tr' :
  bind c k tr = (inr b, tr') ->
  exists a tr1, c tr = (inr a, tr1) /\ k a tr1 = (inr b, tr').
Proof.
  unfold bind. destruct (c tr) as [[e | a] tr1]; intros H.
  - discriminate.
  - exists a, tr1. split; [reflexivity | exact H].
Qed.

Lemma ret_returns {A : Type} (a b : A) tr tr' :
  ret a tr = (inr b, tr') -> a = b /\ tr' = tr.
Proof. unfold ret. intros H. injection H as -> ->. split; reflexivity. Qed.

Lemma lift_returns {A : Type} (r : result A) a tr tr' :
  lift r tr = (inr a, tr') -> r = inr a /\ tr' = tr.
Proof. unfold lift. intros H. injection H as -> ->. split; reflexivity. Qed.

Lemma call_returns {A : Type} ev (r : result A) a tr tr' :
  call ev r tr = (inr a, tr') -> r = inr a /\ tr' = tr ++ [(ev, Returned)].
Proof.
  unfold call. intros H. injection H as -> <-. split; reflexivity.
Qed.

Lemma effect_returns ev u tr tr' :
  effect W ev tr = (inr u, tr') -> tr' = tr ++ [(ev, Returned)].
Proof.
  unfold effect. destruct (fault W tr ev); intros H.
  - discriminate.
  - now injection H as _ <-.
Qed.

Lemma dict_get_bound d k :
  In k (map fst d) -> dict_get d k = inr (getattr d k).
Proof.
  unfold getattr. induction d as [| [k' x] d IH]; simpl.
  - intros [].
  - destruct (String.eqb k' k) eqn:E.
    + reflexivity.
    + intros [-> | H].
      * rewrite String.eqb_refl in E. discriminate.
      * apply IH in H. destruct (dict_get d k); [discriminate | assumption].
Qed.

Lemma dict_get_unbound d k :
  ~ In k (map fst d) -> dict_get d k = inl (KeyError k).
Proof.
  induction d as [| [k' x] d IH]; simpl; intros H.
  - reflexivity.
  - destruct (String.eqb_spec k' k) as [-> | _].
    + exfalso. apply H. now left.
    + apply IH. intros Hin. apply H. now right.
Qed.

Lemma dict_get_In d k x : dict_get d k = inr x -> In (k, x) d.
Proof.
  induction d as [| [k' x'] d IH]; simpl.
  - discriminate.
  - destruct (String.eqb_spec k' k) as [-> | _].
    + intros H. injection H as ->. now left.
    + intros H. right. now apply IH.
Qed.

(** The loop of lines 98-99 over any part [keys] of the keys of [d]. *)
Lemma log_loop_returns d keys u tr tr' :
  incl keys (map fst d) ->
  for_each keys
    (fun key => bind (lift (dict_get d key))
                  (fun x => effect W (EvLogParam key x))) tr = (inr u, tr') ->
  tr' = tr ++ map (fun key => (EvLogParam key (getattr d key), Returned)) keys.
Proof.
  revert tr. induction keys as [| k keys IH]; simpl; intros tr Hin H.
  - apply ret_returns in H. destruct H as [_ ->]. now rewrite app_nil_r.
  - apply bind_returns in H. destruct H as (u1 & tr1 & H1 & H2).
    apply bind_returns in H1. destruct H1 as (x & tr0 & Hx & He).
    apply lift_returns in Hx. destruct Hx as [Hx ->].
    rewrite dict_get_bound in Hx by (apply Hin; now left).
    injection Hx as <-.
    apply effect_returns in He. subst tr1.
    apply IH in H2; [| intros a Ha; apply Hin; now right].
    rewrite H2, <- app_assoc. reflexivity.
Qed.

Lemma split_head_class params :
  split_head "("%char ("LGBMClassifier" ++ "(" ++ params ++ ")") = "LGBMClassifier".
Proof. reflexivity. Qed.

End Steps.

Ltac step H :=
  lazymatch type of H with
  | ret _ _ = _ => apply ret_returns in H; destruct H as [? ?]
  | lift _ _ = _ => apply lift_returns in H; destruct H as [? ?]
  | call _ _ _ = _ => apply call_returns in H; destruct H as [? ?]
  | effect _ _ _ = _ => apply effect_returns in H
  | bind _ _ _ = _ =>
      let a := fresh "a" in
      let t := fresh "t" in
      let H1 := fresh "S" in
      apply bind_returns in H; destruct H as (a & t & H1 & H); try step H1
  end.

Ltac lifted H x Hx :=
  let t := fresh "t" in
  let E := fresh "E" in
  apply bind_returns in H; destruct H as (x & t & Hx & H);
  apply lift_returns in Hx; destruct Hx as [Hx E].

Section Stages.

Context {L : Libs}.
Variable W : World.

Lemma materialize_returns features target df pd tr tr' :
  materialize W features target df tr = (inr pd, tr') ->
  (exists cols, py_add features target = inr cols /\ select cols df = inr pd)
  /\ tr' = tr ++ [(EvToPandas, Returned)].
Proof.
  unfold materialize. intros H.
  do 3 step H. step H. subst.
  split; [eexists; split; eassumption | reflexivity].
Qed.


Lemma with_run_returns {A : Type} (body : RunInfo -> M A) a tr tr' :
  with_run W body tr = (inr a, tr') ->
  exists tr2,
    body (active_run W) (tr ++ [(EvStartRun, Returned)]) = (inr a, tr2) /\
    tr' = tr2 ++ [(EvEndRun "FINISHED", Returned)].
Proof.
  unfold with_run.
  destruct (effect W EvStartRun tr) as [[e | u] tr1] eqn:Hs; [discriminate |].
  apply effect_returns in Hs. subst tr1.
  destruct (body (active_run W) _) as [[e | a'] tr2] eqn:Hb.
  - destruct (effect W (EvEndRun "FAILED") tr2) as [[e' | u'] tr3]; discriminate.
  - destruct (effect W (EvEndRun "FINISHED") tr2) as [[e' | u'] tr3] eqn:He;
      [discriminate |].
    apply effect_returns in He. intros H. injection H as -> <-.
    exists tr2. split; [reflexivity | assumption].
Qed.

Lemma load_config_returns config loaded features target tr tr' :
  load_config W config tr = (inr (loaded, features, target), tr') ->
  yaml_file W config = inr loaded /\
  getitem loaded "features" = inr features /\
  getitem loaded "target" = inr target /\
  tr' = tr ++ [(EvOpenYaml config, Returned)].
Proof.
  unfold load_config. intros H.
  do 3 step H. step H.
  match goal with E : (_, _) = (_, _) |- _ => injection E as -> -> -> end.
  subst. repeat split; assumption.
Qed.

Lemma split_dataset_returns uri p parts tr tr' :
  split_dataset W uri p tr = (inr parts, tr') ->
  exists loans,
    parquet W uri = inr loans /\
    randomSplit loans [p; (1 - p)%float] 7 = inr parts /\
    tr' = tr ++ [(EvGetOrCreate, Returned); (EvReadParquet uri, Returned);
                 (EvCache, Returned); (EvCache, Returned)].
Proof.
  unfold split_dataset. intros H.
  do 5 step H. step H. subst.
  eexists. repeat split; try eassumption.
  repeat rewrite <- app_assoc. reflexivity.
Qed.

End Stages.

(** ** A run that returns *)

Section Returns.

Context {L : Libs}.
Variable W : World.

Lemma run_returns uri config p m tr tr' :
  fit_sklearn_crossvalidator W uri config p tr = (inr m, tr') ->
  exists v, explains W uri config p m v /\ tr' = tr ++ calls_of W uri config p m v.
Proof.
  unfold fit_sklearn_crossvalidator. intros H.
  apply bind_returns in H. destruct H as ([[loaded features] target] & q1 & Hc & H).
  apply load_config_returns in Hc. destruct Hc as (Hy & Hf & Ht & ->).
  apply bind_returns in H. destruct H as ([train test] & q2 & Hs & H).
  apply split_dataset_returns in Hs. destruct Hs as (loans & Hp & Hr & ->).
  apply with_run_returns in H. destruct H as (q3 & H & ->).
  unfold run_body in H.
  do 7 step H.
  apply bind_returns in H. destruct H as (train_df & q4 & Hm1 & H).
  apply materialize_returns in Hm1. destruct Hm1 as ((cols & Ha & Hs1) & ->).
  apply bind_returns in H. destruct H as (test_df & q5 & Hm2 & H).
  apply materialize_returns in Hm2. destruct Hm2 as ((cols' & Ha' & Hs2) & ->).
  rewrite Ha in Ha'. injection Ha' as <-.
  lifted H space Hsp. lifted H grid Hg.
  do 2 step H.
  lifted H X HX. lifted H y HY. lifted H cvModel Hfit.
  step H.
  lifted H X_test HXt. lifted H y_pred Hpred.
  step H.
  lifted H y_test HYt. lifted H test_roc Hroc.
  do 2 step H.
  apply bind_returns in H. destruct H as (u & q4 & Hloop & H).
  apply log_loop_returns in Hloop; [| apply incl_refl].
  step H. step H. subst.
  exists (mkLocals loaded features target loans train test train_df test_df
            space grid X y X_test y_pred y_test test_roc).
  split.
  - unfold explains; simpl. repeat (split; [eassumption |]).
    split; [exists cols; repeat split; assumption |].
    repeat (split; [eassumption |]). assumption.
  - unfold calls_of, log_each_param, artifact_name, str_estimator; simpl.
    repeat rewrite <- app_assoc. simpl. reflexivity.
Qed.


(** Conversely: when the values hang together and no effectful call
    raises, the run returns, with exactly those calls. *)
Lemma log_loop_runs d keys tr :
  (forall tr0 ev, fault W tr0 ev = None) ->
  incl keys (map fst d) ->
  for_each keys
    (fun key => bind (lift (dict_get d key))
                  (fun x => effect W (EvLogParam key x))) tr
  = (inr tt,
     tr ++ map (fun key => (EvLogParam key (getattr d key), Returned)) keys).
Proof.
  intros Hquiet. revert tr. induction keys as [| k keys IH]; simpl; intros tr Hin.
  - unfold ret. now rewrite app_nil_r.
  - unfold bind at 1. unfold bind at 1. unfold lift at 1.
    rewrite dict_get_bound by (apply Hin; now left).
    unfold effect at 1. rewrite Hquiet.
    rewrite IH by (intros a Ha; apply Hin; now right).
    now rewrite <- app_assoc.
Qed.

Lemma bind_runs {A B : Type} (c : M A) (k : A -> M B) tr a tr1 :
  c tr = (inr a, tr1) -> bind c k tr = k a tr1.
Proof. unfold bind. now intros ->. Qed.

Lemma effect_runs ev tr :
  (forall tr0 ev0, fault W tr0 ev0 = None) ->
  effect W ev tr = (inr tt, tr ++ [(ev, Returned)]).
Proof. intros Hquiet. unfold effect. now rewrite Hquiet. Qed.

Lemma call_runs {A : Type} ev (r : result A) a tr :
  r = inr a -> call ev r tr = (inr a, tr ++ [(ev, Returned)]).
Proof. intros ->. reflexivity. Qed.

Lemma lift_runs {A : Type} (r : result A) a tr :
  r = inr a -> lift r tr = (inr a, tr).
Proof. intros ->. reflexivity. Qed.

Lemma materialize_runs features target cols df pd tr :
  (forall tr0 ev, fault W tr0 ev = None) ->
  py_add features target = inr cols ->
  select cols df = inr pd ->
  materialize W features target df tr = (inr pd, tr ++ [(EvToPandas, Returned)]).
Proof.
  intros Hquiet Ha Hs. unfold materialize.
  rewrite (bind_runs _ _ _ _ _ (lift_runs _ _ _ Ha)).
  rewrite (bind_runs _ _ _ _ _ (lift_runs _ _ _ Hs)).
  rewrite (bind_runs _ _ _ _ _ (effect_runs _ _ Hquiet)).
  reflexivity.
Qed.

Lemma run_completes uri config p m v tr :
  (forall tr0 ev, fault W tr0 ev = None) ->
  explains W uri config p m v ->
  fit_sklearn_crossvalidator W uri config p tr
    = (inr m, tr ++ calls_of W uri config p m v).
Proof.
  intros Hquiet
    (Hy & Hf & Ht & Hp & Hr & (cols & Ha & Hs1 & Hs2) & Hsp & Hg & HX & HY
        & Hfit & HXt & Hpred & HYt & Hroc).
  pose proof (fun ev tr0 => effect_runs ev tr0 Hquiet) as Heff.
  unfold fit_sklearn_crossvalidator, load_config, split_dataset.
  rewrite (bind_runs _ _ tr (l_loaded_config v, l_features v, l_target v)
             (tr ++ [(EvOpenYaml config, Returned)])).
  2:{ rewrite (bind_runs _ _ _ _ _ (call_runs _ _ _ _ Hy)).
      rewrite (bind_runs _ _ _ _ _ (lift_runs _ _ _ Hf)).
      rewrite (bind_runs _ _ _ _ _ (lift_runs _ _ _ Ht)).
      reflexivity. }
  rewrite (bind_runs _ _ _ (l_train_part v, l_test_part v)
             (tr ++ [(EvOpenYaml config, Returned); (EvGetOrCreate, Returned);
                     (EvReadParquet uri, Returned); (EvCache, Returned);
                     (EvCache, Returned)])).
  2:{ rewrite (bind_runs _ _ _ _ _ (Heff _ _)).
      rewrite (bind_runs _ _ _ _ _ (call_runs _ _ _ _ Hp)).
      rewrite (bind_runs _ _ _ _ _ (lift_runs _ _ _ Hr)).
      rewrite (bind_runs _ _ _ _ _ (Heff _ _)).
      rewrite (bind_runs _ _ _ _ _ (Heff _ _)).
      unfold ret. repeat rewrite <- app_assoc. reflexivity. }
  unfold with_run. rewrite Heff.
  unfold run_body.
  do 7 rewrite (bind_runs _ _ _ _ _ (Heff _ _)).
  rewrite (bind_runs _ _ _ _ _ (materialize_runs _ _ _ _ _ _ Hquiet Ha Hs1)).
  rewrite (bind_runs _ _ _ _ _ (materialize_runs _ _ _ _ _ _ Hquiet Ha Hs2)).
  rewrite (bind_runs _ _ _ _ _ (lift_runs _ _ _ Hsp)).
  rewrite (bind_runs _ _ _ _ _ (lift_runs _ _ _ Hg)).
  do 2 rewrite (bind_runs _ _ _ _ _ (Heff _ _)).
  rewrite (bind_runs _ _ _ _ _ (lift_runs _ _ _ HX)).
  rewrite (bind_runs _ _ _ _ _ (lift_runs _ _ _ HY)).
  rewrite (bind_runs _ _ _ _ _ (lift_runs _ _ _ Hfit)).
  rewrite (bind_runs _ _ _ _ _ (Heff _ _)).
  rewrite (bind_runs _ _ _ _ _ (lift_runs _ _ _ HXt)).
  rewrite (bind_runs _ _ _ _ _ (lift_runs _ _ _ Hpred)).
  rewrite (bind_runs _ _ _ _ _ (Heff _ _)).
  rewrite (bind_runs _ _ _ _ _ (lift_runs _ _ _ HYt)).
  rewrite (bind_runs _ _ _ _ _ (lift_runs _ _ _ Hroc)).
  do 2 rewrite (bind_runs _ _ _ _ _ (Heff _ _)).
  rewrite (bind_runs _ _ _ _ _
             (log_loop_runs (best_params_ m) _ _ Hquiet (incl_refl _))).
  rewrite (bind_runs _ _ _ _ _ (Heff _ _)).
  unfold ret. rewrite Heff.
  unfold calls_of, log_each_param, artifact_name, str_estimator. simpl.
  repeat rewrite <- app_assoc. reflexivity.
Qed.

End Returns.

(** ** Facts about tables and grids *)

Lemma all_strings_app x y names :
  all_strings (x ++ y) = inr names ->
  exists a b, all_strings x = inr a /\ all_strings y = inr b /\ names = a ++ b.
Proof.
  revert names. induction x as [| v x IH]; simpl; intros names H.
  - exists [], names. repeat split. assumption.
  - destruct v; try discriminate.
    destruct (all_strings (x ++ y)) as [e | ss] eqn:E; [discriminate |].
    injection H as <-.
    destruct (IH ss eq_refl) as (a & b & -> & Hb & ->).
    exists (s :: a), b. repeat split. assumption.
Qed.

Lemma select_columns cols df pd :
  select cols df = inr pd ->
  as_labels cols = inr (columns pd) /\
  Forall (fun row => length row = length (columns pd)) (rows pd).
Proof.
  unfold select.
  destruct (as_labels cols) as [e | names]; [discriminate |].
  destruct (resolve names (columns df)) as [e | idx] eqn:R; [discriminate |].
  intros H. injection H as <-. simpl. split; [reflexivity |].
  assert (Hlen : length idx = length names).
  { clear -R. revert idx R. induction names as [| n ns IH]; simpl; intros idx R.
    - now injection R as <-.
    - destruct (index_of n (columns df)); [| discriminate].
      destruct (resolve ns (columns df)) as [e | is'] eqn:E; [discriminate |].
      injection R as <-. simpl. f_equal. now apply IH. }
  apply Forall_forall. intros row Hrow.
  apply in_map_iff in Hrow. destruct Hrow as (r & <- & _).
  unfold project. now rewrite length_map.
Qed.

Lemma param_grid_returns space grid :
  param_grid space = inr grid ->
  exists a b c d e f,
    getitem space "max_depth" = inr a /\
    getitem space "gamma" = inr b /\
    getitem space "min_child_weight" = inr c /\
    getitem space "learning_rate" = inr d /\
    getitem space "colsample_bytree" = inr e /\
    getitem space "num_leaves" = inr f /\
    grid = [("__max_depth", a); ("__min_split_gain", b);
            ("__min_child_weight", c); ("__learning_rate", d);
            ("__colsample_bytree", e); ("__num_leaves", f)].
Proof.
  unfold param_grid.
  destruct (getitem space "max_depth") as [? | a]; [discriminate |].
  destruct (getitem space "gamma") as [? | b]; [discriminate |].
  destruct (getitem space "min_child_weight") as [? | c]; [discriminate |].
  destruct (getitem space "learning_rate") as [? | d]; [discriminate |].
  destruct (getitem space "colsample_bytree") as [? | e]; [discriminate |].
  destruct (getitem space "num_leaves") as [? | f]; [discriminate |].
  intros H. injection H as <-.
  exists a, b, c, d, e, f. repeat split.
Qed.

(** ** The claims *)

(** C1.  The train/test partition is a function of the dataset and the
    split proportion.  Two executions of the splitting stage (lines 32-39)
    that read the same dataset with the same [split_prop] obtain the same
    pair of partitions, whatever else differs between the two worlds and
    whatever was logged before; the pair is the library's [randomSplit] of
    the dataset with weights [split_prop, 1 - split_prop] and seed 7.
    Hence two runs of [fit_sklearn_crossvalidator] that return, be it
    with different configurations, worked on the same train and test
    partitions. *)
Theorem split_is_repeatable {L : Libs} (W1 W2 : World) uri p :
  parquet W1 uri = parquet W2 uri ->
  (forall tr1 tr2 parts1 parts2 tr1' tr2',
      split_dataset W1 uri p tr1 = (inr parts1, tr1') ->
      split_dataset W2 uri p tr2 = (inr parts2, tr2') ->
      parts1 = parts2 /\
      exists loans,
        parquet W1 uri = inr loans /\
        randomSplit loans [p; (1 - p)%float] 7 = inr parts1) /\
  (forall config1 config2 m1 m2 tr1 tr2,
      fit_sklearn_crossvalidator W1 uri config1 p [] = (inr m1, tr1) ->
      fit_sklearn_crossvalidator W2 uri config2 p [] = (inr m2, tr2) ->
      exists v1 v2,
        explains W1 uri config1 p m1 v1 /\
        explains W2 uri config2 p m2 v2 /\
        l_train_part v1 = l_train_part v2 /\
        l_test_part v1 = l_test_part v2).
Proof.
  intros Hsame. split.
  - intros tr1 tr2 parts1 parts2 tr1' tr2' H1 H2.
    apply split_dataset_returns in H1. destruct H1 as (l1 & P1 & R1 & _).
    apply split_dataset_returns in H2. destruct H2 as (l2 & P2 & R2 & _).
    rewrite Hsame, P2 in P1. injection P1 as <-.
    rewrite R2 in R1. injection R1 as <-.
    split; [reflexivity |].
    exists l2. rewrite Hsame. split; assumption.
  - intros config1 config2 m1 m2 tr1 tr2 H1 H2.
    apply run_returns in H1. destruct H1 as (v1 & Hv1 & _).
    apply run_returns in H2. destruct H2 as (v2 & Hv2 & _).
    exists v1, v2. split; [exact Hv1 |]. split; [exact Hv2 |].
    destruct Hv1 as (_ & _ & _ & P1 & R1 & _).
    destruct Hv2 as (_ & _ & _ & P2 & R2 & _).
    rewrite Hsame, P2 in P1. injection P1 as E. rewrite <- E in R1.
    rewrite R2 in R1. injection R1 as <- <-. split; reflexivity.
Qed.

Lemma split_is_repeatable_witness :
  (exists parts tr,
      split_dataset (L := Reference.libs) Reference.world
        (Some "loans.parquet") 0.8 [] = (inr parts, tr) /\
      parts = parts /\
      exists loans,
        parquet Reference.world (Some "loans.parquet") = inr loans /\
        randomSplit (Libs := Reference.libs) loans [0.8; (1 - 0.8)]%float 7
          = inr parts) /\
  (exists m tr,
      fit_sklearn_crossvalidator (L := Reference.libs) Reference.world
        (Some "loans.parquet") "config.yaml" 0.8 [] = (inr m, tr) /\
      exists v1 v2,
        explains (L := Reference.libs) Reference.world
          (Some "loans.parquet") "config.yaml" 0.8 m v1 /\
        explains (L := Reference.libs) Reference.world
          (Some "loans.parquet") "config.yaml" 0.8 m v2 /\
        l_train_part v1 = l_train_part v2 /\
        l_test_part v1 = l_test_part v2).
Proof.
  pose proof (split_is_repeatable (L := Reference.libs)
                Reference.world Reference.world (Some "loans.parquet")
                0.8%float eq_refl) as [Hstage Hrun].
  split.
  - eexists. eexists. split; [vm_compute; reflexivity |].
    eapply (Hstage [] []); vm_compute; reflexivity.
  - eexists. eexists. split; [vm_compute; reflexivity |].
    eapply (Hrun "config.yaml" "config.yaml"); vm_compute; reflexivity.
Defined.

(** C3.  A configuration that lacks the key [target] or the key
    [features] makes [fit_sklearn_crossvalidator] raise [KeyError] for
    that key when the only external call made is the loading of the
    configuration file: no Spark session was asked for and no dataset was
    read. *)
Theorem missing_key_fails_before_read {L : Libs} (W : World) uri config p d tr :
  yaml_file W config = inr (VDict d) ->
  ~ In "target" (map fst d) \/ ~ In "features" (map fst d) ->
  exists key,
    (key = "features" \/ key = "target") /\
    ~ In key (map fst d) /\
    fit_sklearn_crossvalidator W uri config p tr
      = (inl (KeyError key), tr ++ [(EvOpenYaml config, Returned)]) /\
    forall en, In en [(EvOpenYaml config, Returned)] -> is_read (fst en) = false.
Proof.
  intros Hy Hmiss.
  assert (Hno : forall en, In en [(EvOpenYaml config, Returned)] ->
                           is_read (fst en) = false).
  { intros en [<- | []]. reflexivity. }
  unfold fit_sklearn_crossvalidator, load_config, bind, call, lift.
  rewrite Hy. simpl.
  destruct (in_dec string_dec "features" (map fst d)) as [Hf | Hf].
  - destruct Hmiss as [Ht | Hf']; [| contradiction].
    exists "target". split; [now right |]. split; [assumption |].
    rewrite (dict_get_bound _ _ Hf), (dict_get_unbound _ _ Ht).
    split; [reflexivity | assumption].
  - exists "features". split; [now left |]. split; [assumption |].
    rewrite (dict_get_unbound _ _ Hf).
    split; [reflexivity | assumption].
Qed.

Lemma missing_key_fails_before_read_witness :
  exists key,
    (key = "features" \/ key = "target") /\
    ~ In key (map fst [("features", VList [VStr "f1"])]) /\
    fit_sklearn_crossvalidator (L := Reference.libs)
      (mkWorld (fun _ => inr (VDict [("features", VList [VStr "f1"])]))
         (parquet Reference.world) (active_run Reference.world)
         (fault Reference.world))
      (Some "loans.parquet") "config.yaml" 0.8 []
      = (inl (KeyError key), [] ++ [(EvOpenYaml "config.yaml", Returned)]) /\
    forall en, In en [(EvOpenYaml "config.yaml", Returned)] ->
               is_read (fst en) = false.
Proof.
  apply (missing_key_fails_before_read (L := Reference.libs)
           (mkWorld (fun _ => inr (VDict [("features", VList [VStr "f1"])]))
              (parquet Reference.world) (active_run Reference.world)
              (fault Reference.world))
           (Some "loans.parquet") "config.yaml" 0.8%float
           [("features", VList [VStr "f1"])] []).
  - reflexivity.
  - left. simpl. intros [H | []]. discriminate H.
Defined.

Lemma reference_search_ranks : RankingContract Reference.libs.
Proof.
  intros s X y m. simpl. unfold Reference.search.
  destruct (Reference.candidate_lists (param_distributions s)) as [e | gl];
    [discriminate |].
  destruct (map (Reference.grid_point gl) _) as [| best others];
    [discriminate |].
  intros H. injection H as <-.
  cbn [cv_results_params best_params_ mean_test_score best_index_ best_score_].
  split; [reflexivity |]. split; [reflexivity |].
  apply Forall_forall. intros sc Hin.
  change (In sc (map (fun _ : list (string * value) => 0.5%float)
                   (best :: others))) in Hin.
  apply in_map_iff in Hin.
  destruct Hin as (c & <- & _). right. reflexivity.
Qed.

(** C4.  In every run that returns, the object returned is the result of
    fitting a randomized search with [n_iter = 100], [cv = 5],
    [scoring = "roc_auc"] and [random_state = 7] over the two-stage
    pipeline; the model logged is that search's [best_estimator_] and the
    training metric logged is its [best_score_].  Under scikit-learn's
    contract for these attributes, [best_score_] is the mean
    cross-validated score of the candidate [best_params_], and no
    evaluated candidate has a higher one. *)
Theorem search_is_configured {L : Libs} (HL : RankingContract L)
    (W : World) uri config p m tr :
  fit_sklearn_crossvalidator W uri config p [] = (inr m, tr) ->
  exists grid X y test_roc,
    fit (crossval (LGBMClassifier 2) grid) X y = inr m /\
    n_iter (crossval (LGBMClassifier 2) grid) = 100%nat /\
    cv (crossval (LGBMClassifier 2) grid) = 5%Z /\
    scoring (crossval (LGBMClassifier 2) grid) = "roc_auc" /\
    random_state (crossval (LGBMClassifier 2) grid) = 7%Z /\
    steps (estimator (crossval (LGBMClassifier 2) grid))
      = [("imputation", SimpleImputer); ("", LGBMClassifier 2)] /\
    In (EvLogModel (best_estimator_ m) artifact_name, Returned) tr /\
    In (EvLogMetrics [("ROC_AUC_train", VFloat (best_score_ m));
                      ("ROC_AUC_test", VFloat test_roc)], Returned) tr /\
    nth_error (cv_results_params m) (best_index_ m) = Some (best_params_ m) /\
    nth_error (mean_test_score m) (best_index_ m) = Some (best_score_ m) /\
    Forall (fun sc => PrimFloat.is_nan sc = true \/
                      PrimFloat.leb sc (best_score_ m) = true)
      (mean_test_score m).
Proof.
  intros H. apply run_returns in H. destruct H as (v & Hv & ->).
  destruct Hv as (_ & _ & _ & _ & _ & _ & _ & _ & _ & _ & Hfit & _).
  exists (l_param_grid v), (l_X v), (ravel (l_y v)), (l_test_roc v).
  split; [exact Hfit |].
  repeat (split; [reflexivity |]).
  unfold calls_of. simpl.
  split; [do 17 right; now left |].
  split; [do 20 right; now left |].
  exact (HL _ _ _ _ Hfit).
Qed.

Lemma search_is_configured_witness :
  exists m tr,
    fit_sklearn_crossvalidator (L := Reference.libs) Reference.world
      (Some "loans.parquet") "config.yaml" 0.8 [] = (inr m, tr) /\
    exists grid X y test_roc,
      fit (Libs := Reference.libs) (crossval (LGBMClassifier 2) grid) X y = inr m /\
      n_iter (crossval (LGBMClassifier 2) grid) = 100%nat /\
      cv (crossval (LGBMClassifier 2) grid) = 5%Z /\
      scoring (crossval (LGBMClassifier 2) grid) = "roc_auc" /\
      random_state (crossval (LGBMClassifier 2) grid) = 7%Z /\
      steps (estimator (crossval (LGBMClassifier 2) grid))
        = [("imputation", SimpleImputer); ("", LGBMClassifier 2)] /\
      In (EvLogModel (best_estimator_ m) artifact_name, Returned) tr /\
      In (EvLogMetrics [("ROC_AUC_train", VFloat (best_score_ m));
                        ("ROC_AUC_test", VFloat test_roc)], Returned) tr /\
      nth_error (cv_results_params m) (best_index_ m) = Some (best_params_ m) /\
      nth_error (mean_test_score m) (best_index_ m) = Some (best_score_ m) /\
      Forall (fun sc => PrimFloat.is_nan sc = true \/
                        PrimFloat.leb sc (best_score_ m) = true)
        (mean_test_score m).
Proof.
  eexists. eexists. split; [vm_compute; reflexivity |].
  apply (search_is_configured (L := Reference.libs) reference_search_ranks
           Reference.world (Some "loans.parquet") "config.yaml" 0.8%float).
  vm_compute. reflexivity.
Defined.

(** C6.  In every run that returns, the value logged under
    [ROC_AUC_test] is the very result of [roc_auc_score] applied to the
    target column(s) of the materialized test table and to the best
    estimator's predictions on that table without its target column(s);
    it is logged once, and no other call of [log_metrics] is made. *)
Theorem test_roc_is_logged_as_computed {L : Libs} (W : World) uri config p m tr :
  fit_sklearn_crossvalidator W uri config p [] = (inr m, tr) ->
  exists v test_roc,
    explains W uri config p m v /\
    drop (l_target v) (l_test_df v) = inr (l_X_test v) /\
    predict (best_estimator_ m) (l_X_test v) = inr (l_y_pred v) /\
    frame_getitem (l_target v) (l_test_df v) = inr (l_y_test v) /\
    roc_auc_score (l_y_test v) (l_y_pred v) = inr test_roc /\
    filter (fun en => match fst en with EvLogMetrics _ => true | _ => false end) tr
      = [(EvLogMetrics [("ROC_AUC_train", VFloat (best_score_ m));
                        ("ROC_AUC_test", VFloat test_roc)], Returned)].
Proof.
  intros H. apply run_returns in H. destruct H as (v & Hv & ->).
  exists v, (l_test_roc v). split; [exact Hv |].
  destruct Hv as (_ & _ & _ & _ & _ & _ & _ & _ & _ & _ & _ & HX & HP & HY & HR).
  repeat (split; [assumption |]).
  unfold calls_of. simpl. rewrite filter_app. simpl.
  replace (filter _ (log_each_param (best_params_ m))) with (@nil entry).
  - reflexivity.
  - unfold log_each_param. induction (map fst (best_params_ m)); simpl; auto.
Qed.

Lemma test_roc_is_logged_as_computed_witness :
  exists m tr,
    fit_sklearn_crossvalidator (L := Reference.libs) Reference.world
      (Some "loans.parquet") "config.yaml" 0.8 [] = (inr m, tr) /\
    exists v test_roc,
      explains (L := Reference.libs) Reference.world
        (Some "loans.parquet") "config.yaml" 0.8 m v /\
      drop (l_target v) (l_test_df v) = inr (l_X_test v) /\
      predict (Libs := Reference.libs) (best_estimator_ m) (l_X_test v)
        = inr (l_y_pred v) /\
      frame_getitem (l_target v) (l_test_df v) = inr (l_y_test v) /\
      roc_auc_score (Libs := Reference.libs) (l_y_test v) (l_y_pred v)
        = inr test_roc /\
      filter (fun en => match fst en with EvLogMetrics _ => true | _ => false end) tr
        = [(EvLogMetrics [("ROC_AUC_train", VFloat (best_score_ m));
                          ("ROC_AUC_test", VFloat test_roc)], Returned)].
Proof.
  eexists. eexists. split; [vm_compute; reflexivity |].
  apply (test_roc_is_logged_as_computed (L := Reference.libs) Reference.world
           (Some "loans.parquet") "config.yaml" 0.8%float).
  vm_compute. reflexivity.
Defined.

(** C7.  In every run that returns on a configuration whose [features]
    and [target] are sequences, the tables materialized for the train and
    for the test partition have as header exactly the configured feature
    names followed by the configured target names, and every row has one
    cell per header entry: no other column of the dataset is carried
    over, in either partition. *)
Theorem only_configured_columns {L : Libs} (W : World) uri config p m tr fs ts :
  fit_sklearn_crossvalidator W uri config p [] = (inr m, tr) ->
  (exists loaded, yaml_file W config = inr loaded /\
     getitem loaded "features" = inr (VList fs) /\
     getitem loaded "target" = inr (VList ts)) ->
  exists v fnames tnames,
    explains W uri config p m v /\
    all_strings fs = inr fnames /\
    all_strings ts = inr tnames /\
    columns (l_train_df v) = fnames ++ tnames /\
    columns (l_test_df v) = fnames ++ tnames /\
    Forall (fun row => length row = length (fnames ++ tnames)) (rows (l_train_df v)) /\
    Forall (fun row => length row = length (fnames ++ tnames)) (rows (l_test_df v)).
Proof.
  intros H (loaded & Hy & Hf & Ht).
  apply run_returns in H. destruct H as (v & Hv & _).
  pose proof Hv as (Hy' & Hf' & Ht' & _ & _ & (cols & Ha & Hs1 & Hs2) & _).
  rewrite Hy in Hy'. injection Hy' as Hl. rewrite <- Hl in Hf', Ht'.
  rewrite Hf in Hf'. injection Hf' as Hf'.
  rewrite Ht in Ht'. injection Ht' as Ht'.
  rewrite <- Hf', <- Ht' in Ha. simpl in Ha. injection Ha as <-.
  apply select_columns in Hs1. destruct Hs1 as (L1 & R1).
  apply select_columns in Hs2. destruct Hs2 as (L2 & R2).
  simpl in L1, L2.
  destruct (all_strings_app _ _ _ L1) as (fnames & tnames & Hfn & Htn & E1).
  rewrite L1 in L2. injection L2 as E2.
  exists v, fnames, tnames.
  rewrite <- E2 in R2. rewrite E1 in R1, R2.
  split; [exact Hv |].
  split; [exact Hfn |]. split; [exact Htn |]. split; [exact E1 |].
  split; [now rewrite <- E2 |]. split; assumption.
Qed.

Lemma only_configured_columns_witness :
  exists m tr,
    fit_sklearn_crossvalidator (L := Reference.libs) Reference.world
      (Some "loans.parquet") "config.yaml" 0.8 [] = (inr m, tr) /\
    exists v fnames tnames,
      explains (L := Reference.libs) Reference.world
        (Some "loans.parquet") "config.yaml" 0.8 m v /\
      all_strings [VStr "f1"; VStr "f2"] = inr fnames /\
      all_strings [VStr "target"] = inr tnames /\
      columns (l_train_df v) = fnames ++ tnames /\
      columns (l_test_df v) = fnames ++ tnames /\
      Forall (fun row => length row = length (fnames ++ tnames))
        (rows (l_train_df v)) /\
      Forall (fun row => length row = length (fnames ++ tnames))
        (rows (l_test_df v)).
Proof.
  eexists. eexists. split; [vm_compute; reflexivity |].
  eapply (only_configured_columns (L := Reference.libs) Reference.world
            (Some "loans.parquet") "config.yaml" 0.8%float).
  - vm_compute. reflexivity.
  - exists Reference.config_yaml. repeat split.
Defined.

Lemma tracker_calls_log_each_param d :
  tracker_calls (log_each_param d) = log_each_param d.
Proof.
  unfold tracker_calls, log_each_param.
  induction (map fst d) as [| k ks IH]; simpl; [reflexivity | now rewrite IH].
Qed.

(** C8.  In every run that returns, the calls made to the tracker are, in
    order: one [start_run]; the train and the test row count; the feature
    list; the split proportion; one [log_model] of the best estimator
    under a name that ends in the classifier's class name; the train and
    the test ROC-AUC; one parameter per key of [best_params_]; one
    [end_run] with status FINISHED.  Every one of them returned. *)
Theorem one_run_logs_everything {L : Libs} (W : World) uri config p m tr :
  fit_sklearn_crossvalidator W uri config p [] = (inr m, tr) ->
  exists v,
    explains W uri config p m v /\
    tracker_calls tr =
      [ (EvStartRun, Returned);
        (EvLogMetric "training_nrows" (VInt (count (l_train_part v))), Returned);
        (EvLogMetric "test_nrows" (VInt (count (l_test_part v))), Returned);
        (EvLogParam "features" (l_features v), Returned);
        (EvLogParam "split_prop" (VFloat p), Returned);
        (EvLogModel (best_estimator_ m)
           ("best-5-fold-cross-validated-" ++ est_class (LGBMClassifier 2)),
         Returned);
        (EvLogMetrics [("ROC_AUC_train", VFloat (best_score_ m));
                       ("ROC_AUC_test", VFloat (l_test_roc v))], Returned) ]
      ++ log_each_param (best_params_ m)
      ++ [ (EvEndRun "FINISHED", Returned) ] /\
    forall key x,
      dict_get (best_params_ m) key = inr x ->
      In (EvLogParam key x, Returned) (tracker_calls tr).
Proof.
  intros H. apply run_returns in H. destruct H as (v & Hv & ->).
  exists v. split; [exact Hv |].
  assert (E : tracker_calls ([] ++ calls_of W uri config p m v) =
              [ (EvStartRun, Returned);
                (EvLogMetric "training_nrows" (VInt (count (l_train_part v))), Returned);
                (EvLogMetric "test_nrows" (VInt (count (l_test_part v))), Returned);
                (EvLogParam "features" (l_features v), Returned);
                (EvLogParam "split_prop" (VFloat p), Returned);
                (EvLogModel (best_estimator_ m)
                   ("best-5-fold-cross-validated-" ++ est_class (LGBMClassifier 2)),
                 Returned);
                (EvLogMetrics [("ROC_AUC_train", VFloat (best_score_ m));
                               ("ROC_AUC_test", VFloat (l_test_roc v))], Returned) ]
              ++ log_each_param (best_params_ m)
              ++ [ (EvEndRun "FINISHED", Returned) ]).
  { unfold calls_of. simpl. unfold tracker_calls at 1. simpl.
    do 7 f_equal.
    fold (tracker_calls (log_each_param (best_params_ m) ++
            [(EvPrint "Inside MLflow Run with run_id {} and experiment_id {}"
                [VStr (run_uuid (active_run W));
                 VStr (experiment_id (active_run W))], Returned);
             (EvEndRun "FINISHED", Returned)])).
    unfold tracker_calls. rewrite filter_app.
    fold (tracker_calls (log_each_param (best_params_ m))).
    rewrite tracker_calls_log_each_param. reflexivity. }
  split; [exact E |].
  intros key x Hget. rewrite E.
  apply in_or_app. right. apply in_or_app. left.
  unfold log_each_param. apply in_map_iff. exists key. split.
  - unfold getattr. now rewrite Hget.
  - apply dict_get_In in Hget. apply in_map_iff. exists (key, x). now split.
Qed.

Lemma one_run_logs_everything_witness :
  exists m tr,
    fit_sklearn_crossvalidator (L := Reference.libs) Reference.world
      (Some "loans.parquet") "config.yaml" 0.8 [] = (inr m, tr) /\
    exists v,
      explains (L := Reference.libs) Reference.world
        (Some "loans.parquet") "config.yaml" 0.8 m v /\
      tracker_calls tr =
        [ (EvStartRun, Returned);
          (EvLogMetric "training_nrows" (VInt (count (l_train_part v))), Returned);
          (EvLogMetric "test_nrows" (VInt (count (l_test_part v))), Returned);
          (EvLogParam "features" (l_features v), Returned);
          (EvLogParam "split_prop" (VFloat 0.8), Returned);
          (EvLogModel (best_estimator_ m)
             ("best-5-fold-cross-validated-" ++ est_class (LGBMClassifier 2)),
           Returned);
          (EvLogMetrics [("ROC_AUC_train", VFloat (best_score_ m));
                         ("ROC_AUC_test", VFloat (l_test_roc v))], Returned) ]
        ++ log_each_param (best_params_ m)
        ++ [ (EvEndRun "FINISHED", Returned) ] /\
      forall key x,
        dict_get (best_params_ m) key = inr x ->
        In (EvLogParam key x, Returned) (tracker_calls tr).
Proof.
  eexists. eexists. split; [vm_compute; reflexivity |].
  apply (one_run_logs_everything (L := Reference.libs) Reference.world
           (Some "loans.parquet") "config.yaml" 0.8%float).
  vm_compute. reflexivity.
Defined.

(** ** The reference search meets the contract *)

Lemma candidate_lists_sound g gl :
  Reference.candidate_lists g = inr gl ->
  map fst gl = map fst g /\
  forall k xs, In (k, xs) gl -> In (k, VList xs) g.
Proof.
  revert gl. induction g as [| [k x] g IH]; simpl; intros gl H.
  - injection H as <-. split; [reflexivity | intros ? ? []].
  - destruct x; try discriminate.
    destruct (Reference.candidate_lists g) as [e | r]; [discriminate |].
    injection H as <-. destruct (IH r eq_refl) as [Hk Hin].
    simpl. split; [now rewrite Hk |].
    intros k' xs [E | E].
    + injection E as <- <-. now left.
    + right. now apply Hin.
Qed.

Lemma grid_size_positive gl k xs :
  (0 < Reference.grid_size gl)%nat -> In (k, xs) gl -> (0 < length xs)%nat.
Proof.
  induction gl as [| [k' xs'] gl IH]; simpl; intros Hpos Hin.
  - destruct Hin.
  - destruct Hin as [E | Hin].
    + injection E as _ <-. destruct (length xs'); [simpl in Hpos |]; lia.
    + apply IH; [| assumption]. destruct (Reference.grid_size gl); lia.
Qed.

Lemma grid_point_keys gl i : map fst (Reference.grid_point gl i) = map fst gl.
Proof.
  revert i. induction gl as [| [k xs] gl IH]; simpl; intros i.
  - reflexivity.
  - now rewrite IH.
Qed.

Lemma grid_point_members gl i k x :
  (forall k' xs, In (k', xs) gl -> (0 < length xs)%nat) ->
  In (k, x) (Reference.grid_point gl i) ->
  exists xs, In (k, xs) gl /\ In x xs.
Proof.
  revert i. induction gl as [| [k' xs'] gl IH]; simpl; intros i Hpos Hin.
  - destruct Hin.
  - destruct Hin as [E | Hin].
    + injection E as <- <-. exists xs'. split; [now left |].
      apply nth_In. apply Nat.mod_upper_bound.
      specialize (Hpos k' xs' (or_introl eq_refl)). lia.
    + destruct (IH (i / length xs')%nat) as (xs & H1 & H2).
      * intros k0 xs0 H0. apply (Hpos k0 xs0). now right.
      * assumption.
      * exists xs. split; [now right | assumption].
Qed.

Lemma reference_search_meets_contract : SearchContract Reference.libs.
Proof.
  intros s X y m. simpl. unfold Reference.search.
  destruct (Reference.candidate_lists (param_distributions s)) as [e | gl] eqn:Hc;
    [discriminate |].
  apply candidate_lists_sound in Hc. destruct Hc as [Hkeys Hmem].
  set (n := Nat.min (n_iter s) (Reference.grid_size gl)).
  destruct (map (Reference.grid_point gl) (seq 0 n)) as [| best others] eqn:Hpts;
    [discriminate |].
  intros H. injection H as <-. cbn [cv_results_params best_params_].
  assert (Hn : (0 < Reference.grid_size gl)%nat).
  { destruct n eqn:En; [discriminate Hpts |]. unfold n in En. lia. }
  split; [| split].
  - rewrite <- Hpts, length_map, length_seq. unfold n. lia.
  - rewrite <- Hpts. apply Forall_forall. intros c Hin.
    apply in_map_iff in Hin. destruct Hin as (i & <- & _).
    split.
    + rewrite grid_point_keys, Hkeys. apply Permutation_refl.
    + intros k x Hkx.
      apply grid_point_members in Hkx.
      * destruct Hkx as (xs & H1 & H2). exists xs. split; [now apply Hmem | assumption].
      * intros k' xs Hin. now apply (grid_size_positive gl k').
  - now left.
Qed.

(** C2.  Under scikit-learn's contract for the randomized search, a run
    that returns has evaluated at most 100 candidates, and every value of
    [best_params_] is a member of the sequence that the configuration's
    [parameter_space] declares for the matching key ([gamma] for
    [__min_split_gain], the unprefixed name for the others). *)
Theorem best_params_within_declared {L : Libs} (HL : SearchContract L)
    (W : World) uri config p m tr :
  fit_sklearn_crossvalidator W uri config p [] = (inr m, tr) ->
  exists v,
    explains W uri config p m v /\
    (length (cv_results_params m) <= 100)%nat /\
    forall k x,
      In (k, x) (best_params_ m) ->
      exists name xs,
        In (k, name) searched_as /\
        getitem (l_param_space v) name = inr (VList xs) /\
        In x xs.
Proof.
  intros H. apply run_returns in H. destruct H as (v & Hv & _).
  exists v. split; [exact Hv |].
  destruct Hv as (_ & _ & _ & _ & _ & _ & _ & Hg & _ & _ & Hfit & _).
  apply HL in Hfit. destruct Hfit as (Hlen & Hall & Hbest).
  split; [exact Hlen |].
  intros k x Hkx.
  rewrite Forall_forall in Hall. destruct (Hall _ Hbest) as [_ Hdrawn].
  destruct (Hdrawn k x Hkx) as (xs & Hin & Hx).
  simpl in Hin.
  apply param_grid_returns in Hg.
  destruct Hg as (a & b & c & d & e & f & Ha & Hb & Hc & Hd & He & Hf & Hgrid).
  rewrite Hgrid in Hin. simpl in Hin.
  destruct Hin as [E | [E | [E | [E | [E | [E | []]]]]]];
    injection E as <- ->; eexists; exists xs;
    (split; [| split; [eassumption | assumption]]); simpl; tauto.
Qed.

Lemma best_params_within_declared_witness :
  exists m tr,
    fit_sklearn_crossvalidator (L := Reference.libs) Reference.world
      (Some "loans.parquet") "config.yaml" 0.8 [] = (inr m, tr) /\
    exists v,
      explains (L := Reference.libs) Reference.world
        (Some "loans.parquet") "config.yaml" 0.8 m v /\
      (length (cv_results_params m) <= 100)%nat /\
      forall k x,
        In (k, x) (best_params_ m) ->
        exists name xs,
          In (k, name) searched_as /\
          getitem (l_param_space v) name = inr (VList xs) /\
          In x xs.
Proof.
  eexists. eexists. split; [vm_compute; reflexivity |].
  eapply (best_params_within_declared (L := Reference.libs)
            reference_search_meets_contract Reference.world
            (Some "loans.parquet") "config.yaml" 0.8%float).
  vm_compute. reflexivity.
Defined.

Lemma logged_param_keys_app a b :
  logged_param_keys (a ++ b) = logged_param_keys a ++ logged_param_keys b.
Proof. unfold logged_param_keys. apply flat_map_app. Qed.

Lemma logged_param_keys_log_each_param d :
  logged_param_keys (log_each_param d) = map fst d.
Proof.
  unfold logged_param_keys, log_each_param.
  induction (map fst d) as [| k ks IH]; simpl; [reflexivity | now rewrite IH].
Qed.

(** C9.  In every run that returns: the classifier is the pipeline stage
    named by the empty string, and the keys of the grid are the six
    classifier parameters addressed through that stage, hence prefixed by
    two underscores; the configuration's [gamma] sequence is the grid's
    entry for [__min_split_gain], and neither [gamma] nor [__gamma] is a
    key of the grid.  Under scikit-learn's contract the keys of
    [best_params_] are those six prefixed keys, none of them a key of the
    configuration's [parameter_space] table, and they are the keys logged
    after [features] and [split_prop]. *)
Theorem grid_keys_are_prefixed {L : Libs} (HL : SearchContract L)
    (W : World) uri config p m tr :
  fit_sklearn_crossvalidator W uri config p [] = (inr m, tr) ->
  exists v gamma,
    explains W uri config p m v /\
    In ("", LGBMClassifier 2)
      (steps (estimator (crossval (LGBMClassifier 2) (l_param_grid v)))) /\
    map fst (l_param_grid v) = map (nested_key "") searched_params /\
    getitem (l_param_space v) "gamma" = inr gamma /\
    dict_get (l_param_grid v) "__min_split_gain" = inr gamma /\
    ~ In "gamma" (map fst (l_param_grid v)) /\
    ~ In "__gamma" (map fst (l_param_grid v)) /\
    Permutation (map fst (best_params_ m)) (map fst searched_as) /\
    (forall key, In key (map snd searched_as) ->
                 ~ In key (map fst (best_params_ m))) /\
    logged_param_keys tr = "features" :: "split_prop" :: map fst (best_params_ m).
Proof.
  intros H. apply run_returns in H. destruct H as (v & Hv & ->).
  pose proof Hv as (_ & _ & _ & _ & _ & _ & _ & Hg & _ & _ & Hfit & _).
  apply HL in Hfit. destruct Hfit as (_ & Hall & Hbest).
  rewrite Forall_forall in Hall. destruct (Hall _ Hbest) as [Hperm _].
  simpl in Hperm.
  apply param_grid_returns in Hg.
  destruct Hg as (a & b & c & d & e & f & _ & Hb & _ & _ & _ & _ & Hgrid).
  exists v, b. rewrite Hgrid in *. simpl in Hperm.
  split; [exact Hv |].
  split; [simpl; tauto |].
  split; [reflexivity |].
  split; [exact Hb |].
  split; [reflexivity |].
  split; [simpl; intros [E | [E | [E | [E | [E | [E | []]]]]]]; discriminate E |].
  split; [simpl; intros [E | [E | [E | [E | [E | [E | []]]]]]]; discriminate E |].
  split; [exact Hperm |].
  split.
  - intros key Hkey Hin.
    apply (Permutation_in _ Hperm) in Hin.
    simpl in Hkey, Hin.
    destruct Hkey as [<- | [<- | [<- | [<- | [<- | [<- | []]]]]]];
      destruct Hin as [E | [E | [E | [E | [E | [E | []]]]]]]; discriminate E.
  - unfold calls_of. simpl.
    rewrite logged_param_keys_app, logged_param_keys_log_each_param.
    simpl. now rewrite app_nil_r.
Qed.

Lemma grid_keys_are_prefixed_witness :
  exists m tr,
    fit_sklearn_crossvalidator (L := Reference.libs) Reference.world
      (Some "loans.parquet") "config.yaml" 0.8 [] = (inr m, tr) /\
    exists v gamma,
      explains (L := Reference.libs) Reference.world
        (Some "loans.parquet") "config.yaml" 0.8 m v /\
      In ("", LGBMClassifier 2)
        (steps (estimator (crossval (LGBMClassifier 2) (l_param_grid v)))) /\
      map fst (l_param_grid v) = map (nested_key "") searched_params /\
      getitem (l_param_space v) "gamma" = inr gamma /\
      dict_get (l_param_grid v) "__min_split_gain" = inr gamma /\
      ~ In "gamma" (map fst (l_param_grid v)) /\
      ~ In "__gamma" (map fst (l_param_grid v)) /\
      Permutation (map fst (best_params_ m)) (map fst searched_as) /\
      (forall key, In key (map snd searched_as) ->
                   ~ In key (map fst (best_params_ m))) /\
      logged_param_keys tr = "features" :: "split_prop" :: map fst (best_params_ m).
Proof.
  eexists. eexists. split; [vm_compute; reflexivity |].
  apply (grid_keys_are_prefixed (L := Reference.libs)
           reference_search_meets_contract Reference.world
           (Some "loans.parquet") "config.yaml" 0.8%float).
  vm_compute. reflexivity.
Defined.

(** ** What a computation may append to the log *)

Section Appends.

Context {L : Libs}.
Variable W : World.
Variable P : entry -> Prop.

Lemma adds_ret {A : Type} (a : A) : adds P (ret a).
Proof.
  intros tr r tr' H. injection H as <- <-.
  exists []. split; [now rewrite app_nil_r | constructor].
Qed.

Lemma adds_lift {A : Type} (r : result A) : adds P (lift r).
Proof.
  intros tr r' tr' H. injection H as <- <-.
  exists []. split; [now rewrite app_nil_r | constructor].
Qed.

Lemma adds_call {A : Type} ev (r : result A) :
  (forall o, P (ev, o)) -> adds P (call ev r).
Proof.
  intros HP tr r' tr' H. injection H as <- <-.
  eexists. split; [reflexivity |]. constructor; [apply HP | constructor].
Qed.

Lemma adds_effect ev : (forall o, P (ev, o)) -> adds P (effect W ev).
Proof.
  intros HP tr r tr'. unfold effect.
  destruct (fault W tr ev); intros H; injection H as <- <-;
    (eexists; split; [reflexivity |]; constructor; [apply HP | constructor]).
Qed.

Lemma adds_bind {A B : Type} (c : M A) (k : A -> M B) :
  adds P c -> (forall a, adds P (k a)) -> adds P (bind c k).
Proof.
  intros Hc Hk tr r tr'. unfold bind.
  destruct (c tr) as [[e | a] tr1] eqn:E; intros H.
  - injection H as <- <-. exact (Hc _ _ _ E).
  - destruct (Hc _ _ _ E) as (d1 & -> & F1).
    destruct (Hk a _ _ _ H) as (d2 & -> & F2).
    exists (d1 ++ d2). split; [now rewrite app_assoc |].
    apply Forall_app. now split.
Qed.

Lemma adds_for_each {A : Type} (xs : list A) (f : A -> M unit) :
  (forall x, adds P (f x)) -> adds P (for_each xs f).
Proof.
  intros Hf. induction xs as [| x xs IH]; simpl.
  - apply adds_ret.
  - apply adds_bind; [apply Hf | intros _; exact IH].
Qed.

End Appends.

Ltac appends :=
  repeat first
    [ apply adds_ret
    | apply adds_lift
    | apply adds_call; intros; reflexivity
    | apply adds_effect; intros; reflexivity
    | apply adds_for_each; intros
    | apply adds_bind; [| intros] ].

Lemma load_config_outside {L : Libs} (W : World) config :
  adds outside_run (load_config W config).
Proof. unfold load_config. appends. Qed.

Lemma split_dataset_outside {L : Libs} (W : World) uri p :
  adds outside_run (split_dataset W uri p).
Proof. unfold split_dataset. appends. Qed.

Lemma run_body_inside {L : Libs} (W : World) loaded features target p train test run :
  adds inside_run (run_body W loaded features target p train test run).
Proof. unfold run_body, materialize. appends. Qed.

Lemma with_run_shape {L : Libs} (W : World) {A : Type}
    (body : RunInfo -> M A) tr r tr' :
  adds inside_run (body (active_run W)) ->
  with_run W body tr = (r, tr') ->
  (exists e, r = inl e /\ tr' = tr ++ [(EvStartRun, Raised e)]) \/
  exists d status closing,
    tr' = tr ++ [(EvStartRun, Returned)] ++ d ++ [(EvEndRun status, closing)] /\
    Forall inside_run d /\
    ((exists a, r = inr a /\ status = "FINISHED" /\ closing = Returned) \/
     (exists e, r = inl e /\
        (status = "FAILED" \/ (status = "FINISHED" /\ closing = Raised e)))).
Proof.
  intros Hbody. unfold with_run, effect.
  destruct (fault W tr EvStartRun) as [e |].
  - intros H. injection H as <- <-. left. exists e. now split.
  - destruct (body (active_run W) (tr ++ [(EvStartRun, Returned)]))
      as [[e | a] tr2] eqn:Hb;
      destruct (Hbody _ _ _ Hb) as (d & -> & Hd).
    + destruct (fault W _ (EvEndRun "FAILED")) as [e' |];
        intros H; injection H as <- <-; right;
        exists d, "FAILED"; eexists;
        (split; [repeat rewrite <- app_assoc; reflexivity |]);
        (split; [exact Hd |]); right; eexists; (split; [reflexivity |]);
        now left.
    + destruct (fault W _ (EvEndRun "FINISHED")) as [e' |];
        intros H; injection H as <- <-; right;
        exists d, "FINISHED"; eexists;
        (split; [repeat rewrite <- app_assoc; reflexivity |]);
        (split; [exact Hd |]).
      * right. exists e'. split; [reflexivity |]. right. now split.
      * left. exists a. repeat split.
Qed.

(** C10.  Whatever the world does, an invocation ends in one of two
    ways.  Either no run was opened: the function raised and the log holds
    no tracker call, except possibly a last [start_run] that raised.  Or a
    run was opened: the log holds no tracker call before [start_run]
    returned, then the calls of the body, none of which opens or closes a
    run, and [end_run] as the very last call; its status is FINISHED when
    the function returns and FAILED when the body raised, in which case
    the exception leaves the function only after that call. *)
Theorem run_is_scoped {L : Libs} (W : World) uri config p r tr :
  fit_sklearn_crossvalidator W uri config p [] = (r, tr) ->
  (never_opened tr /\ exists e, r = inl e) \/
  exists status closing,
    scoped tr status closing /\
    ((exists m, r = inr m /\ status = "FINISHED" /\ closing = Returned) \/
     (exists e, r = inl e /\
        (status = "FAILED" \/ (status = "FINISHED" /\ closing = Raised e)))).
Proof.
  unfold fit_sklearn_crossvalidator, bind.
  destruct (load_config W config []) as [[e | [[loaded features] target]] tr1] eqn:H1;
    destruct (load_config_outside W config _ _ _ H1) as (d1 & -> & F1);
    simpl app.
  { intros H. injection H as <- <-. left. split; [now left | now exists e]. }
  destruct (split_dataset W uri p d1) as [[e | [train test]] tr2] eqn:H2;
    destruct (split_dataset_outside W uri p _ _ _ H2) as (d2 & -> & F2).
  { intros H. injection H as <- <-. left. split; [| now exists e].
    left. apply Forall_app. now split. }
  intros H.
  apply with_run_shape in H; [| apply run_body_inside].
  assert (F : Forall outside_run (d1 ++ d2)) by (apply Forall_app; now split).
  destruct H as [(e & -> & ->) | (d & status & closing & -> & Fd & Hr)].
  - left. split; [| now exists e]. right. exists (d1 ++ d2), e. now split.
  - right. exists status, closing. split; [| exact Hr].
    exists (d1 ++ d2), d. repeat split; assumption.
Qed.

Lemma run_is_scoped_witness :
  exists r tr,
    fit_sklearn_crossvalidator (L := Reference.libs)
      Reference.world_refusing_model
      (Some "loans.parquet") "config.yaml" 0.8 [] = (r, tr) /\
    ((never_opened tr /\ exists e, r = inl e) \/
     exists status closing,
       scoped tr status closing /\
       ((exists m, r = inr m /\ status = "FINISHED" /\ closing = Returned) \/
        (exists e, r = inl e /\
           (status = "FAILED" \/ (status = "FINISHED" /\ closing = Raised e))))).
Proof.
  eexists. eexists. split; [vm_compute; reflexivity |].
  apply (run_is_scoped (L := Reference.libs) Reference.world_refusing_model
           (Some "loans.parquet") "config.yaml" 0.8%float).
  vm_compute. reflexivity.
Defined.

(** ** The command line *)

Lemma getattr_setattr_same ns d x : getattr (setattr ns d x) d = x.
Proof.
  unfold getattr. induction ns as [| [k w] ns IH]; simpl.
  - now rewrite String.eqb_refl.
  - destruct (String.eqb k d) eqn:E; simpl; rewrite E; [reflexivity | exact IH].
Qed.

Lemma getattr_setattr_other ns d k x :
  d <> k -> getattr (setattr ns d x) k = getattr ns k.
Proof.
  intros Hne. unfold getattr. induction ns as [| [k' w] ns IH]; simpl.
  - destruct (String.eqb_spec d k); [contradiction | reflexivity].
  - destruct (String.eqb_spec k' d) as [-> | Hd]; simpl.
    + destruct (String.eqb_spec d k); [contradiction | reflexivity].
    + destruct (String.eqb k' k); [reflexivity | exact IH].
Qed.

Lemma mem_string_In s l : mem_string s l = true -> In s l.
Proof.
  unfold mem_string. intros H. apply existsb_exists in H.
  destruct H as (x & Hin & E). apply String.eqb_eq in E. now subst.
Qed.

Lemma find_action_parser a act :
  find_action parser a = Some act ->
  (dest act = "loans_parquet_uri" /\ type_ act = AsStr /\
   In a ["-u"; "--loans_parquet_uri"]) \/
  (dest act = "config" /\ type_ act = AsStr /\ In a ["-c"; "--config"]) \/
  (dest act = "split_prop" /\ type_ act = AsFloat /\ In a ["-s"; "--split_prop"]).
Proof.
  unfold find_action, parser. cbn [find option_strings add_argument].
  destruct (mem_string a ["-u"; "--loans_parquet_uri"]) eqn:Eu.
  { intros H. injection H as <-. left. repeat split. now apply mem_string_In. }
  destruct (mem_string a ["-c"; "--config"]) eqn:Ec.
  { intros H. injection H as <-. right. left. repeat split. now apply mem_string_In. }
  destruct (mem_string a ["-s"; "--split_prop"]) eqn:Es.
  { intros H. injection H as <-. right. right. repeat split. now apply mem_string_In. }
  discriminate.
Qed.

(** A property of the namespace that every store keeps is kept by the
    whole pass. *)
Lemma consume_invariant {L : Libs} (p : list Action) (Q : Namespace -> Prop) :
  forall n argv ns seen extras ns',
    (length argv <= n)%nat ->
    (forall a act v x ns0,
        In a argv -> find_action p a = Some act ->
        convert (type_ act) v = Some x ->
        Q ns0 -> Q (setattr ns0 (dest act) x)) ->
    Q ns ->
    consume p argv ns seen extras = Parsed ns' ->
    Q ns'.
Proof.
  induction n as [| n IH]; intros argv ns seen extras ns' Hlen Hstep HQ.
  - destruct argv; [| simpl in Hlen; lia]. simpl.
    destruct (existsb _ p); [discriminate |].
    destruct extras; [discriminate |]. intros H. now injection H as <-.
  - destruct argv as [| a rest]; simpl.
    + destruct (existsb _ p); [discriminate |].
      destruct extras; [discriminate |]. intros H. now injection H as <-.
    + destruct (is_help a); [discriminate |].
      destruct (find_action p a) as [act |] eqn:Ea.
      * destruct rest as [| v rest']; [discriminate |].
        destruct (dashed v); [discriminate |].
        destruct (convert (type_ act) v) as [x |] eqn:Ex; [| discriminate].
        apply IH.
        -- simpl in Hlen. lia.
        -- intros a0 act0 v0 x0 ns0 Hin. apply Hstep. right. now right.
        -- apply (Hstep a act v x); [now left | assumption | assumption | assumption].
      * apply IH.
        -- simpl in Hlen. lia.
        -- intros a0 act0 v0 x0 ns0 Hin. apply Hstep. now right.
        -- assumption.
Qed.

Lemma parse_args_invariant {L : Libs} (Q : Namespace -> Prop) argv ns :
  (forall a act v x ns0,
      In a argv -> find_action parser a = Some act ->
      convert (type_ act) v = Some x ->
      Q ns0 -> Q (setattr ns0 (dest act) x)) ->
  Q (initial_namespace parser) ->
  parse_args argv = Parsed ns ->
  Q ns.
Proof.
  intros Hstep H0. unfold parse_args.
  destruct (modelled parser argv); [| discriminate].
  apply (consume_invariant parser Q (length argv)); auto.
Qed.

Lemma untouched_default {L : Libs} flags argv ns name x :
  omits flags argv ->
  (forall a act, find_action parser a = Some act -> dest act = name -> In a flags) ->
  getattr (initial_namespace parser) name = x ->
  parse_args argv = Parsed ns ->
  getattr ns name = x.
Proof.
  intros Hom Hflags H0.
  apply (parse_args_invariant (fun ns => getattr ns name = x)); [| exact H0].
  intros a act v y ns0 Hin Hact _ HQ.
  rewrite getattr_setattr_other; [exact HQ |].
  intros Hd. apply (Hom a Hin). now apply (Hflags a act).
Qed.

(** C5, the claim as stated fails: the empty command line names neither
    [-u] nor [--loans_parquet_uri], and it is parsed, not rejected; the
    location is then [None].  So it is not the case that every command
    line omitting the option ends in a usage error. *)
Lemma omitting_uri_is_accepted :
  omits ["-u"; "--loans_parquet_uri"] [] /\
  parse_args (L := Reference.libs) []
    = Parsed [("loans_parquet_uri", VNone);
              ("config", VStr "config.yaml");
              ("split_prop", VFloat 0.8)] /\
  ~ (forall argv, omits ["-u"; "--loans_parquet_uri"] argv ->
                  exists code, parse_args (L := Reference.libs) argv = Exit code).
Proof.
  assert (Hom : omits ["-u"; "--loans_parquet_uri"] []) by (intros a []).
  split; [exact Hom |]. split; [reflexivity |].
  intros H. destruct (H [] Hom) as (code & Hc). discriminate Hc.
Qed.

(** C5, amended.  No option is declared required.  Whenever the command
    line is parsed: [loans_parquet_uri] is [None] if neither [-u] nor
    [--loans_parquet_uri] occurs, and a string otherwise; [config] is a
    string, ["config.yaml"] if neither [-c] nor [--config] occurs;
    [split_prop] is a float, 0.8 if neither [-s] nor [--split_prop]
    occurs.  A command line made of [-u] or [--loans_parquet_uri] and a
    value is parsed, with that value as the location. *)
Theorem uri_is_optional {L : Libs} argv ns :
  parse_args argv = Parsed ns ->
  Forall (fun act => required act = false) parser /\
  (omits ["-u"; "--loans_parquet_uri"] argv ->
   getattr ns "loans_parquet_uri" = VNone) /\
  (omits ["-c"; "--config"] argv -> getattr ns "config" = VStr "config.yaml") /\
  (omits ["-s"; "--split_prop"] argv -> getattr ns "split_prop" = VFloat 0.8) /\
  (getattr ns "loans_parquet_uri" = VNone \/
   exists u, getattr ns "loans_parquet_uri" = VStr u) /\
  (exists c, getattr ns "config" = VStr c) /\
  (exists f, getattr ns "split_prop" = VFloat f) /\
  (forall flag u,
      In flag ["-u"; "--loans_parquet_uri"] -> dashed u = false ->
      parse_args [flag; u]
        = Parsed [("loans_parquet_uri", VStr u);
                  ("config", VStr "config.yaml");
                  ("split_prop", VFloat 0.8)]).
Proof.
  intros H.
  split; [repeat constructor |].
  split.
  { intros Hom. apply (untouched_default _ argv ns _ _ Hom); [| reflexivity | exact H].
    intros a act Ha Hd. apply find_action_parser in Ha.
    destruct Ha as [(_ & _ & Hin) | [(Hd' & _) | (Hd' & _)]];
      [exact Hin | rewrite Hd in Hd'; discriminate Hd' ..]. }
  split.
  { intros Hom. apply (untouched_default _ argv ns _ _ Hom); [| reflexivity | exact H].
    intros a act Ha Hd. apply find_action_parser in Ha.
    destruct Ha as [(Hd' & _) | [(_ & _ & Hin) | (Hd' & _)]];
      [rewrite Hd in Hd'; discriminate Hd' | exact Hin
      | rewrite Hd in Hd'; discriminate Hd']. }
  split.
  { intros Hom. apply (untouched_default _ argv ns _ _ Hom); [| reflexivity | exact H].
    intros a act Ha Hd. apply find_action_parser in Ha.
    destruct Ha as [(Hd' & _) | [(Hd' & _) | (_ & _ & Hin)]];
      [rewrite Hd in Hd'; discriminate Hd' ..| exact Hin]. }
  split.
  { apply (parse_args_invariant
             (fun ns => getattr ns "loans_parquet_uri" = VNone \/
                        exists u, getattr ns "loans_parquet_uri" = VStr u)
             argv ns); [| now left | exact H].
    intros a act v x ns0 _ Ha Hx HQ. apply find_action_parser in Ha.
    destruct Ha as [(Hd & Ht & _) | [(Hd & _) | (Hd & _)]]; rewrite Hd.
    - right. rewrite Ht in Hx. injection Hx as <-. exists v.
      apply getattr_setattr_same.
    - rewrite getattr_setattr_other by discriminate. exact HQ.
    - rewrite getattr_setattr_other by discriminate. exact HQ. }
  split.
  { apply (parse_args_invariant
             (fun ns => exists c, getattr ns "config" = VStr c) argv ns);
      [| now exists "config.yaml" | exact H].
    intros a act v x ns0 _ Ha Hx HQ. apply find_action_parser in Ha.
    destruct Ha as [(Hd & _) | [(Hd & Ht & _) | (Hd & _)]]; rewrite Hd.
    - rewrite getattr_setattr_other by discriminate. exact HQ.
    - rewrite Ht in Hx. injection Hx as <-. exists v.
      apply getattr_setattr_same.
    - rewrite getattr_setattr_other by discriminate. exact HQ. }
  split.
  { apply (parse_args_invariant
             (fun ns => exists f, getattr ns "split_prop" = VFloat f) argv ns);
      [| now exists 0.8%float | exact H].
    intros a act v x ns0 _ Ha Hx HQ. apply find_action_parser in Ha.
    destruct Ha as [(Hd & _) | [(Hd & _) | (Hd & Ht & _)]]; rewrite Hd.
    - rewrite getattr_setattr_other by discriminate. exact HQ.
    - rewrite getattr_setattr_other by discriminate. exact HQ.
    - rewrite Ht in Hx. simpl in Hx.
      destruct (float_of_string v) as [f |]; [| discriminate].
      injection Hx as <-. exists f. apply getattr_setattr_same. }
  intros flag u Hflag Hu.
  destruct Hflag as [<- | [<- | []]];
    unfold parse_args; simpl; rewrite Hu; simpl; reflexivity.
Qed.

Lemma uri_is_optional_witness :
  exists ns,
    parse_args (L := Reference.libs) ["-c"; "other.yaml"] = Parsed ns /\
    omits ["-u"; "--loans_parquet_uri"] ["-c"; "other.yaml"] /\
    getattr ns "loans_parquet_uri" = VNone.
Proof.
  eexists. split; [vm_compute; reflexivity |].
  assert (Hom : omits ["-u"; "--loans_parquet_uri"] ["-c"; "other.yaml"]).
  { intros a [<- | [<- | []]] [E | [E | []]]; discriminate E. }
  split; [exact Hom |].
  apply (uri_is_optional (L := Reference.libs) ["-c"; "other.yaml"]);
    [vm_compute; reflexivity | exact Hom].
Defined.

(** ** Further properties: how an invocation fails *)

Lemma bind_fails {A B : Type} (c : M A) (k : A -> M B) tr e tr1 :
  c tr = (inl e, tr1) -> bind c k tr = (inl e, tr1).
Proof. unfold bind. now intros ->. Qed.

Lemma lift_fails {A : Type} (r : result A) e tr :
  r = inl e -> lift r tr = (inl e, tr).
Proof. intros ->. reflexivity. Qed.

Lemma call_fails {A : Type} ev (r : result A) e tr :
  r = inl e -> call ev r tr = (inl e, tr ++ [(ev, Raised e)]).
Proof. intros ->. reflexivity. Qed.

Lemma tracker_calls_app a b :
  tracker_calls (a ++ b) = tracker_calls a ++ tracker_calls b.
Proof. unfold tracker_calls. apply filter_app. Qed.

Lemma load_config_runs {L : Libs} (W : World) config loaded features target tr :
  yaml_file W config = inr loaded ->
  getitem loaded "features" = inr features ->
  getitem loaded "target" = inr target ->
  load_config W config tr
    = (inr (loaded, features, target), tr ++ [(EvOpenYaml config, Returned)]).
Proof.
  intros Hy Hf Ht. unfold load_config.
  rewrite (bind_runs _ _ _ _ _ (call_runs _ _ _ _ Hy)).
  rewrite (bind_runs _ _ _ _ _ (lift_runs _ _ _ Hf)).
  rewrite (bind_runs _ _ _ _ _ (lift_runs _ _ _ Ht)).
  reflexivity.
Qed.

(** X1.  A configuration document that is not a mapping (an empty file
    loads as [None], a top-level sequence as a list) makes the function
    raise [TypeError] at its first subscript: the loading of the file is
    the only call made. *)
Theorem config_must_be_a_mapping {L : Libs} (W : World) uri config p loaded tr :
  yaml_file W config = inr loaded ->
  (forall d, loaded <> VDict d) ->
  fit_sklearn_crossvalidator W uri config p tr
    = (inl TypeError, tr ++ [(EvOpenYaml config, Returned)]).
Proof.
  intros Hy Hnot. unfold fit_sklearn_crossvalidator, load_config.
  apply bind_fails.
  rewrite (bind_runs _ _ _ _ _ (call_runs _ _ _ _ Hy)).
  apply bind_fails. apply lift_fails.
  destruct loaded; try reflexivity. now elim (Hnot d).
Qed.

Lemma config_must_be_a_mapping_witness :
  fit_sklearn_crossvalidator (L := Reference.libs) Reference.world_empty_config
    (Some "loans.parquet") "config.yaml" 0.8 []
  = (inl TypeError, [] ++ [(EvOpenYaml "config.yaml", Returned)]).
Proof.
  apply (config_must_be_a_mapping (L := Reference.libs)
           Reference.world_empty_config (Some "loans.parquet") "config.yaml"
           0.8%float VNone []).
  - reflexivity.
  - intros d H. discriminate H.
Defined.

(** X2.  When the configuration file cannot be opened or parsed, the
    exception of that call is the one that leaves the function, and no
    other call is made. *)
Theorem unreadable_config_propagates {L : Libs} (W : World) uri config p e tr :
  yaml_file W config = inl e ->
  fit_sklearn_crossvalidator W uri config p tr
    = (inl e, tr ++ [(EvOpenYaml config, Raised e)]).
Proof.
  intros Hy. unfold fit_sklearn_crossvalidator, load_config.
  apply bind_fails. apply bind_fails. now apply call_fails.
Qed.

Lemma unreadable_config_propagates_witness :
  fit_sklearn_crossvalidator (L := Reference.libs) Reference.world
    (Some "loans.parquet") "absent.yaml" 0.8 []
  = (inl OSError, [] ++ [(EvOpenYaml "absent.yaml", Raised OSError)]).
Proof.
  apply (unreadable_config_propagates (L := Reference.libs) Reference.world
           (Some "loans.parquet") "absent.yaml" 0.8%float OSError []).
  reflexivity.
Defined.

(** X3.  With a usable configuration and a quiet world, a dataset that
    cannot be read, or a split that the library refuses, ends the
    invocation with that exception before any partition is cached and
    before the tracker is called at all: no run is opened. *)
Theorem unreadable_dataset_opens_no_run {L : Libs} (W : World)
    uri config p loaded features target e tr :
  quiet W ->
  yaml_file W config = inr loaded ->
  getitem loaded "features" = inr features ->
  getitem loaded "target" = inr target ->
  parquet W uri = inl e \/
  (exists loans, parquet W uri = inr loans /\
     randomSplit loans [p; (1 - p)%float] 7 = inl e) ->
  exists reading,
    fit_sklearn_crossvalidator W uri config p tr
      = (inl e, tr ++ [(EvOpenYaml config, Returned);
                       (EvGetOrCreate, Returned);
                       (EvReadParquet uri, reading)]) /\
    (reading = Raised e \/ reading = Returned).
Proof.
  intros Hquiet Hy Hf Ht Hfail.
  unfold fit_sklearn_crossvalidator.
  rewrite (bind_runs _ _ _ _ _ (load_config_runs W config _ _ _ tr Hy Hf Ht)).
  unfold split_dataset.
  destruct Hfail as [Hp | (loans & Hp & Hr)].
  - exists (Raised e). split; [| now left].
    apply bind_fails.
    rewrite (bind_runs _ _ _ _ _ (effect_runs W _ _ Hquiet)).
    apply bind_fails. rewrite (call_fails _ _ _ _ Hp).
    now rewrite <- !app_assoc.
  - exists Returned. split; [| now right].
    apply bind_fails.
    rewrite (bind_runs _ _ _ _ _ (effect_runs W _ _ Hquiet)).
    rewrite (bind_runs _ _ _ _ _ (call_runs _ _ _ _ Hp)).
    apply bind_fails. rewrite (lift_fails _ _ _ Hr).
    now rewrite <- !app_assoc.
Qed.

Lemma unreadable_dataset_opens_no_run_witness :
  exists reading,
    fit_sklearn_crossvalidator (L := Reference.libs) Reference.world
      (Some "loans.parquet") "config.yaml" 1.5 []
      = (inl ValueError,
         [] ++ [(EvOpenYaml "config.yaml", Returned);
                (EvGetOrCreate, Returned);
                (EvReadParquet (Some "loans.parquet"), reading)]) /\
    (reading = Raised ValueError \/ reading = Returned).
Proof.
  eapply (unreadable_dataset_opens_no_run (L := Reference.libs) Reference.world
            (Some "loans.parquet") "config.yaml" 1.5%float).
  - intros tr ev. reflexivity.
  - reflexivity.
  - reflexivity.
  - reflexivity.
  - right. exists Reference.loans. split; reflexivity.
Defined.

Lemma split_dataset_runs {L : Libs} (W : World) uri p loans parts tr :
  quiet W ->
  parquet W uri = inr loans ->
  randomSplit loans [p; (1 - p)%float] 7 = inr parts ->
  split_dataset W uri p tr
    = (inr parts,
       tr ++ [(EvGetOrCreate, Returned); (EvReadParquet uri, Returned);
              (EvCache, Returned); (EvCache, Returned)]).
Proof.
  intros Hquiet Hp Hr. unfold split_dataset.
  rewrite (bind_runs _ _ _ _ _ (effect_runs W _ _ Hquiet)).
  rewrite (bind_runs _ _ _ _ _ (call_runs _ _ _ _ Hp)).
  rewrite (bind_runs _ _ _ _ _ (lift_runs _ _ _ Hr)).
  rewrite (bind_runs _ _ _ _ _ (effect_runs W _ _ Hquiet)).
  rewrite (bind_runs _ _ _ _ _ (effect_runs W _ _ Hquiet)).
  unfold ret. now rewrite <- !app_assoc.
Qed.

Lemma run_enters_body {L : Libs} (W : World) uri config p v tr :
  quiet W ->
  reaches_run W uri config p v ->
  fit_sklearn_crossvalidator W uri config p tr
  = with_run W
      (run_body W (l_loaded_config v) (l_features v) (l_target v) p
         (l_train_part v) (l_test_part v))
      (tr ++ [(EvOpenYaml config, Returned); (EvGetOrCreate, Returned);
              (EvReadParquet uri, Returned); (EvCache, Returned);
              (EvCache, Returned)]).
Proof.
  intros Hquiet (Hy & Hf & Ht & Hp & Hr).
  unfold fit_sklearn_crossvalidator.
  rewrite (bind_runs _ _ _ _ _ (load_config_runs W config _ _ _ tr Hy Hf Ht)).
  rewrite (bind_runs _ _ _ _ _ (split_dataset_runs W uri p _ _ _ Hquiet Hp Hr)).
  now rewrite <- !app_assoc.
Qed.

Lemma failing_body_closes_run {L : Libs} (W : World) {A : Type}
    (body : RunInfo -> M A) tr e t2 :
  quiet W ->
  body (active_run W) (tr ++ [(EvStartRun, Returned)]) = (inl e, t2) ->
  with_run W body tr = (inl e, t2 ++ [(EvEndRun "FAILED", Returned)]).
Proof.
  intros Hquiet Hb. unfold with_run.
  rewrite (effect_runs W _ _ Hquiet). cbv beta iota.
  destruct (body (active_run W) _) as [r t] eqn:E.
  injection Hb as -> ->.
  rewrite (effect_runs W _ _ Hquiet). reflexivity.
Qed.

Lemma materialize_fails {L : Libs} (W : World) features target df e tr :
  py_add features target = inl e \/
  (exists cols, py_add features target = inr cols /\ select cols df = inl e) ->
  materialize W features target df tr = (inl e, tr).
Proof.
  unfold materialize. intros [Ha | (cols & Ha & Hs)].
  - apply bind_fails. now apply lift_fails.
  - rewrite (bind_runs _ _ _ _ _ (lift_runs _ _ _ Ha)).
    apply bind_fails. now apply lift_fails.
Qed.

(** The body of the run up to line 46, in a quiet world. *)
Ltac count_rows Hquiet :=
  unfold run_body;
  do 7 rewrite (bind_runs _ _ _ _ _ (effect_runs _ _ _ Hquiet)).

(** X4.  In a quiet world, once the run is open, a failure while the
    partitions are materialized or while the grid is built (a feature or
    target column the dataset lacks, [features] and [target] of
    different kinds, no [parameter_space], a hyperparameter key missing
    from it) is raised only after both row counts were logged: the run
    is closed as FAILED and holds the two row counts and nothing else. *)
Theorem early_failure_keeps_row_counts {L : Libs} (W : World)
    uri config p v e :
  quiet W ->
  reaches_run W uri config p v ->
  py_add (l_features v) (l_target v) = inl e \/
  (exists cols,
      py_add (l_features v) (l_target v) = inr cols /\
      (select cols (l_train_part v) = inl e \/
       (select cols (l_train_part v) = inr (l_train_df v) /\
        (select cols (l_test_part v) = inl e \/
         (select cols (l_test_part v) = inr (l_test_df v) /\
          (getitem (l_loaded_config v) "parameter_space" = inl e \/
           (getitem (l_loaded_config v) "parameter_space"
              = inr (l_param_space v) /\
            param_grid (l_param_space v) = inl e))))))) ->
  exists tr,
    fit_sklearn_crossvalidator W uri config p [] = (inl e, tr) /\
    tracker_calls tr = row_count_calls v ++ [(EvEndRun "FAILED", Returned)].
Proof.
  intros Hquiet Hrun Hfail.
  rewrite (run_enters_body W uri config p v [] Hquiet Hrun).
  destruct Hfail
    as [Ha | (cols & Ha & [Hs1 | (Hs1 & [Hs2 | (Hs2 & [Hsp | (Hsp & Hg)])])])];
    (eexists; split;
     [eapply failing_body_closes_run; [exact Hquiet |]; count_rows Hquiet
     | ]).
  - apply bind_fails. apply materialize_fails. now left.
  - reflexivity.
  - apply bind_fails. apply materialize_fails. right. now exists cols.
  - reflexivity.
  - rewrite (bind_runs _ _ _ _ _
               (materialize_runs W _ _ _ _ _ _ Hquiet Ha Hs1)).
    apply bind_fails. apply materialize_fails. right. now exists cols.
  - reflexivity.
  - rewrite (bind_runs _ _ _ _ _
               (materialize_runs W _ _ _ _ _ _ Hquiet Ha Hs1)).
    rewrite (bind_runs _ _ _ _ _
               (materialize_runs W _ _ _ _ _ _ Hquiet Ha Hs2)).
    apply bind_fails. now apply lift_fails.
  - reflexivity.
  - rewrite (bind_runs _ _ _ _ _
               (materialize_runs W _ _ _ _ _ _ Hquiet Ha Hs1)).
    rewrite (bind_runs _ _ _ _ _
               (materialize_runs W _ _ _ _ _ _ Hquiet Ha Hs2)).
    rewrite (bind_runs _ _ _ _ _ (lift_runs _ _ _ Hsp)).
    apply bind_fails. now apply lift_fails.
  - reflexivity.
Qed.

Lemma early_failure_keeps_row_counts_witness :
  exists tr,
    fit_sklearn_crossvalidator (L := Reference.libs)
      Reference.world_without_space (Some "loans.parquet") "config.yaml" 0.8 []
      = (inl (KeyError "parameter_space"), tr) /\
    tracker_calls tr
      = row_count_calls
          (locals_of (L := Reference.libs) Reference.world_without_space
             (Some "loans.parquet") "config.yaml" 0.8)
        ++ [(EvEndRun "FAILED", Returned)].
Proof.
  apply (early_failure_keeps_row_counts (L := Reference.libs)
           Reference.world_without_space (Some "loans.parquet") "config.yaml"
           0.8%float
           (locals_of (L := Reference.libs) Reference.world_without_space
              (Some "loans.parquet") "config.yaml" 0.8)
           (KeyError "parameter_space")).
  - intros tr ev. reflexivity.
  - repeat split.
  - right. eexists. split; [reflexivity |].
    right. split; [reflexivity |].
    right. split; [reflexivity |].
    left. reflexivity.
Defined.

(** X5.  In a quiet world, once the search object is built, a failure
    while the training table is separated into features and labels, or a
    failure of the search itself, is raised after the feature list and
    the split proportion were logged: the run is closed as FAILED and
    holds the two row counts and these two parameters, but no model, no
    ROC-AUC and no best parameter. *)
Theorem search_failure_keeps_inputs {L : Libs} (W : World)
    uri config p v e :
  quiet W ->
  reaches_search W uri config p v ->
  drop (l_target v) (l_train_df v) = inl e \/
  (drop (l_target v) (l_train_df v) = inr (l_X v) /\
   (frame_getitem (l_target v) (l_train_df v) = inl e \/
    (frame_getitem (l_target v) (l_train_df v) = inr (l_y v) /\
     fit (crossval (LGBMClassifier 2) (l_param_grid v)) (l_X v) (ravel (l_y v))
       = inl e))) ->
  exists tr,
    fit_sklearn_crossvalidator W uri config p [] = (inl e, tr) /\
    tracker_calls tr
      = row_count_calls v ++ input_param_calls v p
        ++ [(EvEndRun "FAILED", Returned)].
Proof.
  intros Hquiet (Hrun & (cols & Ha & Hs1 & Hs2) & Hsp & Hg) Hfail.
  rewrite (run_enters_body W uri config p v [] Hquiet Hrun).
  destruct Hfail as [HX | (HX & [HY | (HY & Hfit)])];
    (eexists; split;
     [eapply failing_body_closes_run; [exact Hquiet |]; count_rows Hquiet;
      rewrite (bind_runs _ _ _ _ _
                 (materialize_runs W _ _ _ _ _ _ Hquiet Ha Hs1));
      rewrite (bind_runs _ _ _ _ _
                 (materialize_runs W _ _ _ _ _ _ Hquiet Ha Hs2));
      rewrite (bind_runs _ _ _ _ _ (lift_runs _ _ _ Hsp));
      rewrite (bind_runs _ _ _ _ _ (lift_runs _ _ _ Hg));
      do 2 rewrite (bind_runs _ _ _ _ _ (effect_runs _ _ _ Hquiet))
     | ]).
  - apply bind_fails. now apply lift_fails.
  - reflexivity.
  - rewrite (bind_runs _ _ _ _ _ (lift_runs _ _ _ HX)).
    apply bind_fails. now apply lift_fails.
  - reflexivity.
  - rewrite (bind_runs _ _ _ _ _ (lift_runs _ _ _ HX)).
    rewrite (bind_runs _ _ _ _ _ (lift_runs _ _ _ HY)).
    apply bind_fails. now apply lift_fails.
  - reflexivity.
Qed.

Lemma search_failure_keeps_inputs_witness :
  exists tr,
    fit_sklearn_crossvalidator (L := Reference.libs_failing_search)
      Reference.world (Some "loans.parquet") "config.yaml" 0.8 []
      = (inl (LibraryError "RandomizedSearchCV.fit"), tr) /\
    tracker_calls tr
      = row_count_calls
          (locals_of (L := Reference.libs_failing_search) Reference.world
             (Some "loans.parquet") "config.yaml" 0.8)
        ++ input_param_calls
             (locals_of (L := Reference.libs_failing_search) Reference.world
                (Some "loans.parquet") "config.yaml" 0.8) 0.8
        ++ [(EvEndRun "FAILED", Returned)].
Proof.
  apply (search_failure_keeps_inputs (L := Reference.libs_failing_search)
           Reference.world (Some "loans.parquet") "config.yaml" 0.8%float
           (locals_of (L := Reference.libs_failing_search) Reference.world
              (Some "loans.parquet") "config.yaml" 0.8)
           (LibraryError "RandomizedSearchCV.fit")).
  - intros tr ev. reflexivity.
  - split; [repeat split |].
    split; [eexists; repeat split |]. split; reflexivity.
  - right. split; [reflexivity |]. right. split; reflexivity.
Defined.

(** X6.  In a quiet world, once the search has returned, a failure while
    the best estimator is evaluated on the test table ([predict] or
    [roc_auc_score] raising, as the latter does when the test labels hold
    one class only) is raised after the model was logged and before any
    ROC-AUC is: the run is closed as FAILED and holds the row counts, the
    two input parameters and the model artifact, but neither the train
    nor the test ROC-AUC and no best parameter. *)
Theorem evaluation_failure_keeps_model {L : Libs} (W : World)
    uri config p m v e :
  quiet W ->
  reaches_model W uri config p m v ->
  drop (l_target v) (l_test_df v) = inl e \/
  (drop (l_target v) (l_test_df v) = inr (l_X_test v) /\
   (predict (best_estimator_ m) (l_X_test v) = inl e \/
    (predict (best_estimator_ m) (l_X_test v) = inr (l_y_pred v) /\
     (frame_getitem (l_target v) (l_test_df v) = inl e \/
      (frame_getitem (l_target v) (l_test_df v) = inr (l_y_test v) /\
       roc_auc_score (l_y_test v) (l_y_pred v) = inl e))))) ->
  exists tr,
    fit_sklearn_crossvalidator W uri config p [] = (inl e, tr) /\
    tracker_calls tr
      = row_count_calls v ++ input_param_calls v p
        ++ [(EvLogModel (best_estimator_ m) artifact_name, Returned);
            (EvEndRun "FAILED", Returned)].
Proof.
  intros Hquiet
    ((Hrun & (cols & Ha & Hs1 & Hs2) & Hsp & Hg) & HX & HY & Hfit) Hfail.
  rewrite (run_enters_body W uri config p v [] Hquiet Hrun).
  destruct Hfail as [HXt | (HXt & [HP | (HP & [HYt | (HYt & HR)])])];
    (eexists; split;
     [eapply failing_body_closes_run; [exact Hquiet |]; count_rows Hquiet;
      rewrite (bind_runs _ _ _ _ _
                 (materialize_runs W _ _ _ _ _ _ Hquiet Ha Hs1));
      rewrite (bind_runs _ _ _ _ _
                 (materialize_runs W _ _ _ _ _ _ Hquiet Ha Hs2));
      rewrite (bind_runs _ _ _ _ _ (lift_runs _ _ _ Hsp));
      rewrite (bind_runs _ _ _ _ _ (lift_runs _ _ _ Hg));
      do 2 rewrite (bind_runs _ _ _ _ _ (effect_runs _ _ _ Hquiet));
      rewrite (bind_runs _ _ _ _ _ (lift_runs _ _ _ HX));
      rewrite (bind_runs _ _ _ _ _ (lift_runs _ _ _ HY));
      rewrite (bind_runs _ _ _ _ _ (lift_runs _ _ _ Hfit));
      rewrite (bind_runs _ _ _ _ _ (effect_runs _ _ _ Hquiet))
     | ]).
  - apply bind_fails. now apply lift_fails.
  - reflexivity.
  - rewrite (bind_runs _ _ _ _ _ (lift_runs _ _ _ HXt)).
    apply bind_fails. now apply lift_fails.
  - reflexivity.
  - rewrite (bind_runs _ _ _ _ _ (lift_runs _ _ _ HXt)).
    rewrite (bind_runs _ _ _ _ _ (lift_runs _ _ _ HP)).
    rewrite (bind_runs _ _ _ _ _ (effect_runs _ _ _ Hquiet)).
    apply bind_fails. now apply lift_fails.
  - reflexivity.
  - rewrite (bind_runs _ _ _ _ _ (lift_runs _ _ _ HXt)).
    rewrite (bind_runs _ _ _ _ _ (lift_runs _ _ _ HP)).
    rewrite (bind_runs _ _ _ _ _ (effect_runs _ _ _ Hquiet)).
    rewrite (bind_runs _ _ _ _ _ (lift_runs _ _ _ HYt)).
    apply bind_fails. now apply lift_fails.
  - reflexivity.
Qed.

Lemma evaluation_failure_keeps_model_witness :
  exists m tr,
    fit_sklearn_crossvalidator (L := Reference.libs_one_class)
      Reference.world (Some "loans.parquet") "config.yaml" 0.8 []
      = (inl ValueError, tr) /\
    tracker_calls tr
      = row_count_calls
          (locals_of (L := Reference.libs_one_class) Reference.world
             (Some "loans.parquet") "config.yaml" 0.8)
        ++ input_param_calls
             (locals_of (L := Reference.libs_one_class) Reference.world
                (Some "loans.parquet") "config.yaml" 0.8) 0.8
        ++ [(EvLogModel (best_estimator_ m) artifact_name, Returned);
            (EvEndRun "FAILED", Returned)].
Proof.
  eexists.
  eapply (evaluation_failure_keeps_model (L := Reference.libs_one_class)
            Reference.world (Some "loans.parquet") "config.yaml" 0.8%float _
            (locals_of (L := Reference.libs_one_class) Reference.world
               (Some "loans.parquet") "config.yaml" 0.8)
            ValueError).
  - intros tr ev. reflexivity.
  - split; [| split; [reflexivity | split; [reflexivity | reflexivity]]].
    split; [repeat split |].
    split; [eexists; repeat split |]. split; reflexivity.
  - right. split; [reflexivity |].
    right. split; [reflexivity |].
    right. split; reflexivity.
Defined.

(** ** Further properties: the grid, the tables and the model *)

Lemma mem_string_iff s l : mem_string s l = true <-> In s l.
Proof.
  split; [apply mem_string_In |].
  intros Hin. unfold mem_string. apply existsb_exists.
  exists s. split; [assumption | apply String.eqb_refl].
Qed.

Lemma dict_get_mem d k :
  dict_get d k
  = if mem_string k (map fst d) then inr (getattr d k) else inl (KeyError k).
Proof.
  destruct (mem_string k (map fst d)) eqn:E.
  - apply dict_get_bound. now apply mem_string_iff.
  - apply dict_get_unbound. intros Hin. apply mem_string_iff in Hin.
    rewrite Hin in E. discriminate E.
Qed.

(** X7.  The grid is built from exactly six keys of [parameter_space],
    subscripted in the order max_depth, gamma, min_child_weight,
    learning_rate, colsample_bytree, num_leaves: when one of them is
    absent the error is the [KeyError] of the first absent one; when all
    are present the grid holds their values under the prefixed names,
    whatever other keys the table has.  A [parameter_space] that is not a
    mapping gives [TypeError]. *)
Theorem param_grid_first_missing_key :
  (forall d,
      param_grid (VDict d)
      = match find (fun k => negb (mem_string k (map fst d))) hyperparameters with
        | Some k => inl (KeyError k)
        | None =>
            inr [("__max_depth", getattr d "max_depth");
                 ("__min_split_gain", getattr d "gamma");
                 ("__min_child_weight", getattr d "min_child_weight");
                 ("__learning_rate", getattr d "learning_rate");
                 ("__colsample_bytree", getattr d "colsample_bytree");
                 ("__num_leaves", getattr d "num_leaves")]
        end) /\
  (forall space, (forall d, space <> VDict d) -> param_grid space = inl TypeError).
Proof.
  split.
  - intros d. unfold param_grid, getitem, hyperparameters, find.
    rewrite !dict_get_mem.
    destruct (mem_string "max_depth" (map fst d)); [| reflexivity].
    destruct (mem_string "gamma" (map fst d)); [| reflexivity].
    destruct (mem_string "min_child_weight" (map fst d)); [| reflexivity].
    destruct (mem_string "learning_rate" (map fst d)); [| reflexivity].
    destruct (mem_string "colsample_bytree" (map fst d)); [| reflexivity].
    destruct (mem_string "num_leaves" (map fst d)); reflexivity.
  - intros space Hnot. destruct space; try reflexivity. now elim (Hnot d).
Qed.

(** X8.  The object returned does not depend on the test partition: two
    runs that return, on the same configuration document and on
    datasets whose splits have the same train partition, return the same
    fitted search (same best estimator, best parameters and train
    score), however their test partitions, locations and split
    proportions differ. *)
Theorem model_ignores_test_partition {L : Libs} (W1 W2 : World)
    uri1 uri2 config1 config2 p1 p2 m1 m2 tr1 tr2
    loans1 loans2 train test1 test2 :
  fit_sklearn_crossvalidator W1 uri1 config1 p1 [] = (inr m1, tr1) ->
  fit_sklearn_crossvalidator W2 uri2 config2 p2 [] = (inr m2, tr2) ->
  yaml_file W1 config1 = yaml_file W2 config2 ->
  parquet W1 uri1 = inr loans1 ->
  randomSplit loans1 [p1; (1 - p1)%float] 7 = inr (train, test1) ->
  parquet W2 uri2 = inr loans2 ->
  randomSplit loans2 [p2; (1 - p2)%float] 7 = inr (train, test2) ->
  m1 = m2.
Proof.
  intros H1 H2 Hyaml Hp1 Hr1 Hp2 Hr2.
  apply run_returns in H1. destruct H1 as (v1 & Hv1 & _).
  apply run_returns in H2. destruct H2 as (v2 & Hv2 & _).
  destruct Hv1 as (Hy1 & Hf1 & Ht1 & Hq1 & Hs1 & (c1 & Ha1 & Hsel1 & _)
                     & Hsp1 & Hg1 & HX1 & HY1 & Hfit1 & _).
  destruct Hv2 as (Hy2 & Hf2 & Ht2 & Hq2 & Hs2 & (c2 & Ha2 & Hsel2 & _)
                     & Hsp2 & Hg2 & HX2 & HY2 & Hfit2 & _).
  rewrite Hyaml, Hy2 in Hy1. injection Hy1 as El.
  rewrite Hp1 in Hq1. injection Hq1 as E1. rewrite <- E1, Hr1 in Hs1.
  injection Hs1 as Etr1 _.
  rewrite Hp2 in Hq2. injection Hq2 as E2. rewrite <- E2, Hr2 in Hs2.
  injection Hs2 as Etr2 _.
  rewrite <- El, Hf2 in Hf1. injection Hf1 as Ef.
  rewrite <- El, Ht2 in Ht1. injection Ht1 as Et.
  rewrite <- El, Hsp2 in Hsp1. injection Hsp1 as Es.
  rewrite <- Es, Hg2 in Hg1. injection Hg1 as Eg.
  rewrite <- Ef, <- Et, Ha2 in Ha1. injection Ha1 as Ec.
  rewrite <- Ec, <- Etr1, Etr2, Hsel2 in Hsel1. injection Hsel1 as Ed.
  rewrite <- Et, <- Ed, HX2 in HX1. injection HX1 as EX.
  rewrite <- Et, <- Ed, HY2 in HY1. injection HY1 as EY.
  rewrite <- Eg, <- EX, <- EY, Hfit2 in Hfit1. now injection Hfit1.
Qed.

Lemma model_ignores_test_partition_witness :
  exists m1 m2 tr1 tr2,
    fit_sklearn_crossvalidator (L := Reference.libs) Reference.world
      (Some "loans.parquet") "config.yaml" 0.8 [] = (inr m1, tr1) /\
    fit_sklearn_crossvalidator (L := Reference.libs) Reference.world_other_test
      None "config.yaml" 0.5 [] = (inr m2, tr2) /\
    tr1 <> tr2 /\
    m1 = m2.
Proof.
  eexists. eexists. eexists. eexists.
  split; [vm_compute; reflexivity |].
  split; [vm_compute; reflexivity |].
  split; [intros H; discriminate H |].
  eapply (model_ignores_test_partition (L := Reference.libs)
            Reference.world Reference.world_other_test
            (Some "loans.parquet") None "config.yaml" "config.yaml"
            0.8%float 0.5%float);
    vm_compute; reflexivity.
Defined.

Lemma select_rows cols df pd :
  select cols df = inr pd -> length (rows pd) = length (rows df).
Proof.
  unfold select.
  destruct (as_labels cols) as [e | names]; [discriminate |].
  destruct (resolve names (columns df)) as [e | idx]; [discriminate |].
  intros H. injection H as <-. simpl. apply length_map.
Qed.

Lemma drop_shape labels df X :
  drop labels df = inr X ->
  exists ls,
    as_labels labels = inr ls /\
    columns X = filter (fun c => negb (mem_string c ls)) (columns df) /\
    length (rows X) = length (rows df).
Proof.
  unfold drop.
  destruct (as_labels labels) as [e | ls]; [discriminate |].
  destruct (first_missing ls (columns df)); [discriminate |].
  intros H. injection H as <-. exists ls. simpl.
  repeat split. apply length_map.
Qed.

Lemma filter_out_all (ls : list string) :
  filter (fun c => negb (mem_string c ls)) ls = [].
Proof.
  assert (H : forall l, incl l ls ->
                        filter (fun c => negb (mem_string c ls)) l = []).
  { induction l as [| c l IH]; intros Hin; simpl; [reflexivity |].
    assert (Hc : mem_string c ls = true)
      by (apply mem_string_iff, Hin; now left).
    rewrite Hc. simpl. apply IH. intros x Hx. apply Hin. now right. }
  apply H, incl_refl.
Qed.

Lemma materialized_header fs ts cols df pd :
  py_add (VList fs) (VList ts) = inr cols ->
  select cols df = inr pd ->
  exists fnames tnames,
    all_strings fs = inr fnames /\
    all_strings ts = inr tnames /\
    columns pd = fnames ++ tnames.
Proof.
  simpl. intros Ha Hs. injection Ha as <-.
  apply select_columns in Hs. destruct Hs as [Hl _]. simpl in Hl.
  destruct (all_strings_app _ _ _ Hl) as (fnames & tnames & Hf & Ht & E).
  exists fnames, tnames. repeat split; assumption.
Qed.

(** X9.  In every run that returns on a configuration whose [features]
    and [target] are sequences, the table the search is fitted on has as
    columns the configured feature names that are not target names, in
    their configured order; no target name is among them; and the table
    handed to [predict] has the same columns. *)
Theorem features_exclude_target {L : Libs} (W : World) uri config p m tr fs ts :
  fit_sklearn_crossvalidator W uri config p [] = (inr m, tr) ->
  (exists loaded, yaml_file W config = inr loaded /\
     getitem loaded "features" = inr (VList fs) /\
     getitem loaded "target" = inr (VList ts)) ->
  exists v fnames tnames,
    explains W uri config p m v /\
    all_strings fs = inr fnames /\
    all_strings ts = inr tnames /\
    columns (l_X v) = filter (fun c => negb (mem_string c tnames)) fnames /\
    columns (l_X_test v) = columns (l_X v) /\
    (forall t, In t tnames -> ~ In t (columns (l_X v))).
Proof.
  intros H (loaded & Hy & Hf & Ht).
  apply run_returns in H. destruct H as (v & Hv & _).
  pose proof Hv as (Hy' & Hf' & Ht' & _ & _ & (cols & Ha & Hs1 & Hs2) & _ & _
                      & HX & _ & _ & HXt & _).
  rewrite Hy in Hy'. injection Hy' as El. rewrite <- El in Hf', Ht'.
  rewrite Hf in Hf'. injection Hf' as Ef.
  rewrite Ht in Ht'. injection Ht' as Et.
  rewrite <- Ef, <- Et in Ha.
  destruct (materialized_header _ _ _ _ _ Ha Hs1) as (fnames & tnames & Hfn & Htn & E1).
  destruct (materialized_header _ _ _ _ _ Ha Hs2) as (fnames' & tnames' & Hfn' & Htn' & E2).
  rewrite Hfn in Hfn'. injection Hfn' as <-.
  rewrite Htn in Htn'. injection Htn' as <-.
  apply drop_shape in HX. destruct HX as (ls & Hls & HcX & _).
  apply drop_shape in HXt. destruct HXt as (ls' & Hls' & HcXt & _).
  rewrite <- Et in Hls, Hls'. simpl in Hls, Hls'.
  rewrite Htn in Hls, Hls'. injection Hls as <-. injection Hls' as <-.
  rewrite E1, filter_app, filter_out_all, app_nil_r in HcX.
  rewrite E2, filter_app, filter_out_all, app_nil_r in HcXt.
  exists v, fnames, tnames.
  split; [exact Hv |]. split; [exact Hfn |]. split; [exact Htn |].
  split; [exact HcX |]. split; [now rewrite HcX, HcXt |].
  intros t Hin Hcol. rewrite HcX in Hcol.
  apply filter_In in Hcol. destruct Hcol as [_ Hneg].
  apply mem_string_iff in Hin. rewrite Hin in Hneg. discriminate Hneg.
Qed.

Lemma features_exclude_target_witness :
  exists m tr,
    fit_sklearn_crossvalidator (L := Reference.libs) Reference.world
      (Some "loans.parquet") "config.yaml" 0.8 [] = (inr m, tr) /\
    exists v fnames tnames,
      explains (L := Reference.libs) Reference.world
        (Some "loans.parquet") "config.yaml" 0.8 m v /\
      all_strings [VStr "f1"; VStr "f2"] = inr fnames /\
      all_strings [VStr "target"] = inr tnames /\
      columns (l_X v) = filter (fun c => negb (mem_string c tnames)) fnames /\
      columns (l_X_test v) = columns (l_X v) /\
      (forall t, In t tnames -> ~ In t (columns (l_X v))).
Proof.
  eexists. eexists. split; [vm_compute; reflexivity |].
  eapply (features_exclude_target (L := Reference.libs) Reference.world
            (Some "loans.parquet") "config.yaml" 0.8%float).
  - vm_compute. reflexivity.
  - exists Reference.config_yaml. repeat split.
Defined.

Lemma indices_of_absent name cols i :
  ~ In name cols -> indices_of name cols i = [].
Proof.
  revert i. induction cols as [| c cs IH]; simpl; intros i Hno; [reflexivity |].
  destruct (String.eqb_spec c name) as [-> | _].
  - exfalso. apply Hno. now left.
  - apply IH. intros Hin. apply Hno. now right.
Qed.

Lemma indices_of_app name a b i :
  indices_of name (a ++ b) i
  = indices_of name a i ++ indices_of name b (i + length a).
Proof.
  revert i. induction a as [| c cs IH]; simpl; intros i.
  - now rewrite Nat.add_0_r.
  - rewrite IH. replace (S i + length cs)%nat with (i + S (length cs))%nat by lia.
    destruct (String.eqb c name); reflexivity.
Qed.

Lemma ravel_single_column k rs :
  length (concat (map (project [k]) rs)) = length rs.
Proof.
  induction rs as [| r rs IH]; simpl; [reflexivity | now rewrite IH].
Qed.

Lemma single_target_labels t fnames df y :
  ~ In t fnames ->
  columns df = fnames ++ [t] ->
  frame_getitem (VList [VStr t]) df = inr y ->
  length (ravel y) = length (rows df).
Proof.
  intros Hno Hcols. unfold frame_getitem. simpl.
  destruct (mem_string t (columns df)); [| discriminate].
  intros H. injection H as <-. unfold ravel. simpl.
  rewrite Hcols, app_nil_r, indices_of_app, (indices_of_absent _ _ _ Hno).
  simpl. rewrite String.eqb_refl. simpl. apply ravel_single_column.
Qed.

(** X10.  In every run that returns, the row counts logged as
    [training_nrows] and [test_nrows] are the numbers of rows of the
    tables handed to [fit] and to [predict].  When the target is a single
    column that is not also a feature, the label vector given to [fit]
    has one label per row of the feature table, and so has the one given
    to [roc_auc_score] for the test table. *)
Theorem row_counts_are_fitted_rows {L : Libs} (W : World) uri config p m tr :
  fit_sklearn_crossvalidator W uri config p [] = (inr m, tr) ->
  exists v,
    explains W uri config p m v /\
    In (EvLogMetric "training_nrows" (VInt (count (l_X v))), Returned) tr /\
    In (EvLogMetric "test_nrows" (VInt (count (l_X_test v))), Returned) tr /\
    (forall fs t fnames,
        l_features v = VList fs ->
        l_target v = VList [VStr t] ->
        all_strings fs = inr fnames ->
        ~ In t fnames ->
        length (ravel (l_y v)) = length (rows (l_X v)) /\
        length (rows (l_y_test v)) = length (rows (l_X_test v)) /\
        length (ravel (l_y_test v)) = length (rows (l_X_test v))).
Proof.
  intros H. apply run_returns in H. destruct H as (v & Hv & ->).
  exists v. split; [exact Hv |].
  destruct Hv as (_ & _ & _ & _ & _ & (cols & Ha & Hs1 & Hs2) & _ & _
                    & HX & HY & _ & HXt & _ & HYt & _).
  pose proof (select_rows _ _ _ Hs1) as R1.
  pose proof (select_rows _ _ _ Hs2) as R2.
  destruct (drop_shape _ _ _ HX) as (ls & _ & _ & RX).
  destruct (drop_shape _ _ _ HXt) as (ls' & _ & _ & RXt).
  assert (C1 : count (l_X v) = count (l_train_part v))
    by (unfold count; now rewrite RX, R1).
  assert (C2 : count (l_X_test v) = count (l_test_part v))
    by (unfold count; now rewrite RXt, R2).
  rewrite C1, C2. unfold calls_of. simpl.
  split; [do 7 right; now left |].
  split; [do 9 right; now left |].
  intros fs t fnames Ef Et Hfn Hno.
  rewrite Ef, Et in Ha.
  destruct (materialized_header _ _ _ _ _ Ha Hs1) as (f1 & t1 & Hf1 & Ht1 & E1).
  destruct (materialized_header _ _ _ _ _ Ha Hs2) as (f2 & t2 & Hf2 & Ht2 & E2).
  rewrite Hfn in Hf1, Hf2. injection Hf1 as <-. injection Hf2 as <-.
  simpl in Ht1, Ht2. injection Ht1 as <-. injection Ht2 as <-.
  rewrite Et in HY, HYt.
  rewrite (single_target_labels _ _ _ _ Hno E1 HY).
  rewrite (single_target_labels _ _ _ _ Hno E2 HYt).
  rewrite RX, RXt. repeat split.
  revert HYt. unfold frame_getitem. simpl.
  destruct (mem_string t (columns (l_test_df v))); [| discriminate].
  intros HYt. injection HYt as <-. simpl. apply length_map.
Qed.

Lemma row_counts_are_fitted_rows_witness :
  exists m tr,
    fit_sklearn_crossvalidator (L := Reference.libs) Reference.world
      (Some "loans.parquet") "config.yaml" 0.8 [] = (inr m, tr) /\
    exists v,
      explains (L := Reference.libs) Reference.world
        (Some "loans.parquet") "config.yaml" 0.8 m v /\
      In (EvLogMetric "training_nrows" (VInt (count (l_X v))), Returned) tr /\
      In (EvLogMetric "test_nrows" (VInt (count (l_X_test v))), Returned) tr /\
      (forall fs t fnames,
          l_features v = VList fs ->
          l_target v = VList [VStr t] ->
          all_strings fs = inr fnames ->
          ~ In t fnames ->
          length (ravel (l_y v)) = length (rows (l_X v)) /\
          length (rows (l_y_test v)) = length (rows (l_X_test v)) /\
          length (ravel (l_y_test v)) = length (rows (l_X_test v))).
Proof.
  eexists. eexists. split; [vm_compute; reflexivity |].
  apply (row_counts_are_fitted_rows (L := Reference.libs) Reference.world
           (Some "loans.parquet") "config.yaml" 0.8%float).
  vm_compute. reflexivity.
Defined.

(** ** Further properties: what is read, and when *)

Lemma adds_with_run {L : Libs} (W : World) (P : entry -> Prop) {A : Type}
    (body : RunInfo -> M A) :
  (forall o, P (EvStartRun, o)) ->
  (forall status o, P (EvEndRun status, o)) ->
  adds P (body (active_run W)) ->
  adds P (with_run W body).
Proof.
  intros Hs He Hb tr r tr'. unfold with_run, effect.
  destruct (fault W tr EvStartRun) as [e |].
  - intros H. injection H as <- <-. eexists. split; [reflexivity |].
    constructor; [apply Hs | constructor].
  - destruct (body (active_run W) _) as [[e | a] t2] eqn:E;
      destruct (Hb _ _ _ E) as (d & -> & Hd);
      destruct (fault W _ (EvEndRun _)) as [e' |];
      intros H; injection H as <- <-;
      (eexists; split; [rewrite <- !app_assoc; reflexivity |]);
      (constructor; [apply Hs |]);
      (apply Forall_app; split; [exact Hd |]);
      (constructor; [apply He | constructor]).
Qed.

Lemma run_body_no_input {L : Libs} (W : World)
    loaded features target p train test run :
  adds no_input (run_body W loaded features target p train test run).
Proof.
  unfold run_body, materialize.
  repeat first
    [ apply adds_ret
    | apply adds_lift
    | apply adds_effect; intros; split; reflexivity
    | apply adds_for_each; intros
    | apply adds_bind; [| intros] ].
Qed.

Lemma split_dataset_reads_once {L : Libs} (W : World) uri p tr r tr' :
  split_dataset W uri p tr = (r, tr') ->
  exists d,
    tr' = tr ++ d /\
    Forall (fun en => outside_run en /\ is_open (fst en) = false /\
                      forall u, fst en = EvReadParquet u -> u = uri) d /\
    (length (filter (fun en => is_read (fst en)) d) <= 1)%nat.
Proof.
  assert (Hg : forall o, (fun en : entry => outside_run en /\ is_open (fst en) = false /\
                      forall u, fst en = EvReadParquet u -> u = uri) (EvGetOrCreate, o))
    by (intros o; repeat split; intros u Hu; discriminate Hu).
  assert (Hc : forall o, (fun en : entry => outside_run en /\ is_open (fst en) = false /\
                      forall u, fst en = EvReadParquet u -> u = uri) (EvCache, o))
    by (intros o; repeat split; intros u Hu; discriminate Hu).
  assert (Hr : forall o, (fun en : entry => outside_run en /\ is_open (fst en) = false /\
                      forall u, fst en = EvReadParquet u -> u = uri) (EvReadParquet uri, o))
    by (intros o; repeat split; intros u Hu; now injection Hu).
  unfold split_dataset, bind, effect, call, lift, ret.
  destruct (fault W tr EvGetOrCreate) as [e |].
  { intros H. injection H as <- <-. eexists. split; [reflexivity |].
    split; [repeat constructor; apply Hg | simpl; lia]. }
  destruct (parquet W uri) as [e | loans].
  { intros H. injection H as <- <-. eexists.
    split; [rewrite <- !app_assoc; reflexivity |].
    split; [| simpl; lia].
    constructor; [apply Hg |]. constructor; [apply Hr | constructor]. }
  destruct (randomSplit loans _ seed) as [e | parts].
  { intros H. injection H as <- <-. eexists.
    split; [rewrite <- !app_assoc; reflexivity |].
    split; [| simpl; lia].
    constructor; [apply Hg |]. constructor; [apply Hr | constructor]. }
  destruct (fault W _ EvCache) as [e |].
  { intros H. injection H as <- <-. eexists.
    split; [rewrite <- !app_assoc; reflexivity |].
    split; [| simpl; lia].
    constructor; [apply Hg |]. constructor; [apply Hr |].
    constructor; [apply Hc | constructor]. }
  destruct (fault W _ EvCache) as [e |];
    intros H; injection H as <- <-; eexists;
    (split; [rewrite <- !app_assoc; reflexivity |]);
    (split; [| simpl; lia]);
    (constructor; [apply Hg |]); (constructor; [apply Hr |]);
    (constructor; [apply Hc |]); (constructor; [apply Hc | constructor]).
Qed.

(** X11.  Whatever the world does and however the invocation ends: the
    configuration file is loaded exactly once, as the very first call;
    the dataset is read at most once, from the location given; and both
    happen before the tracker is first called - from the opening of the
    run on, no file is loaded and no dataset is read. *)
Theorem inputs_are_read_once {L : Libs} (W : World) uri config p r tr :
  fit_sklearn_crossvalidator W uri config p [] = (r, tr) ->
  exists o before after,
    tr = (EvOpenYaml config, o) :: before ++ after /\
    Forall (fun en => outside_run en /\ is_open (fst en) = false /\
                      forall u, fst en = EvReadParquet u -> u = uri) before /\
    (length (filter (fun en => is_read (fst en)) before) <= 1)%nat /\
    Forall no_input after.
Proof.
  unfold fit_sklearn_crossvalidator, load_config.
  unfold bind at 1 2 3 4. unfold call, lift, ret.
  destruct (yaml_file W config) as [e | loaded]; simpl.
  { intros H. injection H as <- <-. exists (Raised e), [], [].
    repeat split; try constructor. simpl. lia. }
  destruct (getitem loaded "features") as [e | features]; simpl.
  { intros H. injection H as <- <-. exists Returned, [], [].
    repeat split; try constructor. simpl. lia. }
  destruct (getitem loaded "target") as [e | target]; simpl.
  { intros H. injection H as <- <-. exists Returned, [], [].
    repeat split; try constructor. simpl. lia. }
  unfold bind.
  destruct (split_dataset W uri p [(EvOpenYaml config, Returned)])
    as [[e | [train test]] t2] eqn:Hs;
    destruct (split_dataset_reads_once W uri p _ _ _ Hs) as (d & -> & Hd & Hn).
  { intros H. injection H as <- <-. exists Returned, d, [].
    rewrite app_nil_r. repeat split; try assumption. constructor. }
  intros H.
  destruct (adds_with_run W no_input _
              (fun o => conj eq_refl eq_refl)
              (fun s o => conj eq_refl eq_refl)
              (run_body_no_input W loaded features target p train test
                 (active_run W)) _ _ _ H) as (d' & -> & Hd').
  exists Returned, d, d'. repeat split; assumption.
Qed.

Lemma inputs_are_read_once_witness :
  exists r tr,
    fit_sklearn_crossvalidator (L := Reference.libs)
      Reference.world_refusing_model
      (Some "loans.parquet") "config.yaml" 0.8 [] = (r, tr) /\
    exists o before after,
      tr = (EvOpenYaml "config.yaml", o) :: before ++ after /\
      Forall (fun en => outside_run en /\ is_open (fst en) = false /\
                        forall u, fst en = EvReadParquet u ->
                                  u = Some "loans.parquet") before /\
      (length (filter (fun en => is_read (fst en)) before) <= 1)%nat /\
      Forall no_input after.
Proof.
  eexists. eexists. split; [vm_compute; reflexivity |].
  eapply (inputs_are_read_once (L := Reference.libs)
            Reference.world_refusing_model
            (Some "loans.parquet") "config.yaml" 0.8%float).
  vm_compute. reflexivity.
Defined.

(** X12.  In a quiet world the function returns exactly when every stage
    has a result: the configuration loads and has [features], [target]
    and the six hyperparameter sequences, the dataset is read and split,
    both partitions have the configured columns, and the search, the
    prediction and the metric succeed.  It then returns the fitted search
    after the calls of a complete run, in order. *)
Theorem quiet_run_returns {L : Libs} (W : World) uri config p m tr :
  quiet W ->
  fit_sklearn_crossvalidator W uri config p [] = (inr m, tr) <->
  exists v, explains W uri config p m v /\ tr = calls_of W uri config p m v.
Proof.
  intros Hquiet. split.
  - intros H. apply run_returns in H. exact H.
  - intros (v & Hv & ->).
    exact (run_completes W uri config p m v [] Hquiet Hv).
Qed.

Lemma quiet_run_returns_witness :
  exists m,
    fit_sklearn_crossvalidator (L := Reference.libs) Reference.world
      (Some "loans.parquet") "config.yaml" 0.8 []
    = (inr m,
       calls_of Reference.world (Some "loans.parquet") "config.yaml" 0.8 m
         (locals_of (L := Reference.libs) Reference.world
            (Some "loans.parquet") "config.yaml" 0.8)).
Proof.
  eexists.
  apply (quiet_run_returns (L := Reference.libs) Reference.world
           (Some "loans.parquet") "config.yaml" 0.8%float).
  - intros tr ev. reflexivity.
  - exists (locals_of (L := Reference.libs) Reference.world
              (Some "loans.parquet") "config.yaml" 0.8).
    split; [| reflexivity].
    repeat (split; [reflexivity |]).
    split; [eexists; repeat split |].
    repeat (split; [reflexivity |]). reflexivity.
Defined.

(** ** Further properties: the command line *)

Lemma consume_extras {L : Libs} (p : list Action) :
  forall n argv ns seen ns',
    (length argv <= n)%nat ->
    consume p argv ns seen true <> Parsed ns'.
Proof.
  induction n as [| n IH]; intros argv ns seen ns' Hlen.
  - destruct argv; [| simpl in Hlen; lia]. simpl.
    destruct (existsb _ p); discriminate.
  - destruct argv as [| a rest]; simpl.
    + destruct (existsb _ p); discriminate.
    + destruct (is_help a); [discriminate |].
      destruct (find_action p a) as [act |].
      * destruct rest as [| v rest']; [discriminate |].
        destruct (dashed v); [discriminate |].
        destruct (convert (type_ act) v); [| discriminate].
        apply IH. simpl in Hlen. lia.
      * apply IH. simpl in Hlen. lia.
Qed.

(** What a parsed command line leaves for the words that follow it. *)
Lemma consume_app {L : Libs} (p : list Action) :
  forall n argv ns seen ns',
    (length argv <= n)%nat ->
    consume p argv ns seen false = Parsed ns' ->
    exists seen',
      forall rest,
        consume p (argv ++ rest) ns seen false = consume p rest ns' seen' false.
Proof.
  induction n as [| n IH]; intros argv ns seen ns' Hlen.
  - destruct argv; [| simpl in Hlen; lia]. simpl.
    destruct (existsb _ p); [discriminate |].
    intros H. injection H as <-. now exists seen.
  - destruct argv as [| a rest0].
    + simpl. destruct (existsb _ p); [discriminate |].
      intros H. injection H as <-. now exists seen.
    + simpl. destruct (is_help a); [discriminate |].
      destruct (find_action p a) as [act |].
      * destruct rest0 as [| v rest']; [discriminate |]. simpl.
        destruct (dashed v); [discriminate |].
        destruct (convert (type_ act) v) as [x |]; [| discriminate].
        apply IH. simpl in Hlen. lia.
      * intros H. exfalso.
        apply (consume_extras p (length rest0) rest0 ns seen ns' (le_n _) H).
Qed.

Lemma parse_args_app {L : Libs} argv ns rest :
  parse_args argv = Parsed ns ->
  modelled parser rest = true ->
  exists seen,
    parse_args (argv ++ rest) = consume parser rest ns seen false.
Proof.
  unfold parse_args. intros H Hrest.
  destruct (modelled parser argv) eqn:Hm; [| discriminate].
  destruct (consume_app parser (length argv) argv _ _ _ (le_n _) H) as (seen & Hs).
  exists seen. unfold modelled in *. rewrite forallb_app, Hm, Hrest. simpl.
  apply Hs.
Qed.

Lemma declared_flag_is_no_help a act :
  find_action parser a = Some act -> is_help a = false /\ dashed a = true.
Proof.
  intros H. apply find_action_parser in H.
  destruct H as [(_ & _ & Hin) | [(_ & _ & Hin) | (_ & _ & Hin)]];
    destruct Hin as [<- | [<- | []]]; split; reflexivity.
Qed.

Lemma plain_word_is_no_flag a :
  dashed a = false -> is_help a = false /\ find_action parser a = None.
Proof.
  intros Hd. split.
  - unfold is_help.
    destruct (String.eqb_spec a "-h") as [-> | _]; [discriminate Hd |].
    destruct (String.eqb_spec a "--help") as [-> | _]; [discriminate Hd |].
    reflexivity.
  - destruct (find_action parser a) as [act |] eqn:E; [| reflexivity].
    apply declared_flag_is_no_help in E. destruct E as [_ E].
    rewrite E in Hd. discriminate Hd.
Qed.

Lemma modelled_flag {L : Libs} flag act rest :
  find_action parser flag = Some act ->
  modelled parser rest = true ->
  modelled parser (flag :: rest) = true.
Proof.
  intros Hflag Hrest. unfold modelled in *. cbn [forallb].
  rewrite Hflag, Hrest. now rewrite orb_true_r.
Qed.

Lemma modelled_word {L : Libs} word rest :
  dashed word = false ->
  modelled parser rest = true ->
  modelled parser (word :: rest) = true.
Proof.
  intros Hw Hrest. unfold modelled in *. cbn [forallb].
  now rewrite Hw, Hrest.
Qed.

(** X13.  Options accumulate from left to right: after a command line
    that parses, one more declared option with a value stores the
    converted value under the option's attribute and leaves every other
    attribute as it was.  In particular a later occurrence of an option
    overrides an earlier one. *)
Theorem later_option_overrides {L : Libs} argv ns flag act v x :
  parse_args argv = Parsed ns ->
  find_action parser flag = Some act ->
  dashed v = false ->
  convert (type_ act) v = Some x ->
  parse_args (argv ++ [flag; v]) = Parsed (setattr ns (dest act) x) /\
  getattr (setattr ns (dest act) x) (dest act) = x /\
  (forall name, name <> dest act ->
                getattr (setattr ns (dest act) x) name = getattr ns name).
Proof.
  intros Hp Hflag Hv Hx.
  destruct (declared_flag_is_no_help _ _ Hflag) as [Hh _].
  split; [| split].
  - destruct (parse_args_app argv ns [flag; v] Hp) as (seen & ->).
    + apply (modelled_flag flag act); [assumption |].
      now apply modelled_word.
    + cbn [consume]. rewrite Hh, Hflag, Hv, Hx. reflexivity.
  - apply getattr_setattr_same.
  - intros name Hne. apply getattr_setattr_other. congruence.
Qed.

Lemma later_option_overrides_witness :
  parse_args (L := Reference.libs) (["-s"; "0.8"; "-c"; "a.yaml"] ++ ["--split_prop"; "0.5"])
  = Parsed (setattr [("loans_parquet_uri", VNone); ("config", VStr "a.yaml");
                     ("split_prop", VFloat 0.8)]
              "split_prop" (VFloat 0.5)) /\
  getattr (setattr [("loans_parquet_uri", VNone); ("config", VStr "a.yaml");
                    ("split_prop", VFloat 0.8)]
             "split_prop" (VFloat 0.5)) "split_prop" = VFloat 0.5 /\
  (forall name, name <> "split_prop" ->
     getattr (setattr [("loans_parquet_uri", VNone); ("config", VStr "a.yaml");
                       ("split_prop", VFloat 0.8)]
                "split_prop" (VFloat 0.5)) name
     = getattr [("loans_parquet_uri", VNone); ("config", VStr "a.yaml");
                ("split_prop", VFloat 0.8)] name).
Proof.
  apply (later_option_overrides (L := Reference.libs)
           ["-s"; "0.8"; "-c"; "a.yaml"]
           [("loans_parquet_uri", VNone); ("config", VStr "a.yaml");
            ("split_prop", VFloat 0.8)]
           "--split_prop"
           (add_argument ["-s"; "--split_prop"] (VFloat 0.8) AsFloat false)
           "0.5" (VFloat 0.5));
    reflexivity.
Defined.

(** X14.  After a command line that parses, each of the following makes
    [parse_args] exit with status 2: a declared option as last word,
    without its value; a declared option followed by another declared
    option instead of a value; [-s] or [--split_prop] with a value that
    [float] refuses; a word that belongs to no option (no positional
    argument is declared). *)
Theorem usage_errors_exit_2 {L : Libs} argv ns :
  parse_args argv = Parsed ns ->
  (forall flag act,
      find_action parser flag = Some act ->
      parse_args (argv ++ [flag]) = Exit 2) /\
  (forall flag act flag' act',
      find_action parser flag = Some act ->
      find_action parser flag' = Some act' ->
      parse_args (argv ++ [flag; flag']) = Exit 2) /\
  (forall flag v,
      In flag ["-s"; "--split_prop"] ->
      dashed v = false ->
      float_of_string v = None ->
      parse_args (argv ++ [flag; v]) = Exit 2) /\
  (forall word,
      dashed word = false ->
      parse_args (argv ++ [word]) = Exit 2).
Proof.
  intros Hp. split; [| split; [| split]].
  - intros flag act Hflag.
    destruct (declared_flag_is_no_help _ _ Hflag) as [Hh _].
    destruct (parse_args_app argv ns [flag] Hp) as (seen & ->).
    + now apply (modelled_flag flag act).
    + cbn [consume]. now rewrite Hh, Hflag.
  - intros flag act flag' act' Hflag Hflag'.
    destruct (declared_flag_is_no_help _ _ Hflag) as [Hh _].
    destruct (declared_flag_is_no_help _ _ Hflag') as [_ Hd'].
    destruct (parse_args_app argv ns [flag; flag'] Hp) as (seen & ->).
    + apply (modelled_flag flag act); [assumption |].
      now apply (modelled_flag flag' act').
    + cbn [consume]. now rewrite Hh, Hflag, Hd'.
  - intros flag v Hin Hv Hfloat.
    assert (Hflag : exists act, find_action parser flag = Some act /\
                                type_ act = AsFloat).
    { destruct Hin as [<- | [<- | []]]; eexists; split; reflexivity. }
    destruct Hflag as (act & Hflag & Hty).
    destruct (declared_flag_is_no_help _ _ Hflag) as [Hh _].
    destruct (parse_args_app argv ns [flag; v] Hp) as (seen & ->).
    + apply (modelled_flag flag act); [assumption |].
      now apply modelled_word.
    + cbn [consume]. rewrite Hh, Hflag, Hv, Hty. cbn [convert].
      now rewrite Hfloat.
  - intros word Hw.
    destruct (plain_word_is_no_flag _ Hw) as [Hh Hnone].
    destruct (parse_args_app argv ns [word] Hp) as (seen & ->).
    + now apply modelled_word.
    + cbn [consume]. rewrite Hh, Hnone.
      destruct (existsb _ parser); reflexivity.
Qed.

Lemma usage_errors_exit_2_witness :
  parse_args (L := Reference.libs) (["-u"; "loans.parquet"] ++ ["-c"]) = Exit 2 /\
  parse_args (L := Reference.libs) (["-u"; "loans.parquet"] ++ ["-s"; "much"]) = Exit 2 /\
  parse_args (L := Reference.libs) (["-u"; "loans.parquet"] ++ ["loans.parquet"]) = Exit 2.
Proof.
  pose proof (usage_errors_exit_2 (L := Reference.libs)
                ["-u"; "loans.parquet"]
                [("loans_parquet_uri", VStr "loans.parquet");
                 ("config", VStr "config.yaml");
                 ("split_prop", VFloat 0.8)] eq_refl)
    as (Hmissing & _ & Hfloat & Hword).
  split; [| split].
  - apply (Hmissing "-c" (add_argument ["-c"; "--config"]
                            (VStr "config.yaml") AsStr false)).
    reflexivity.
  - apply (Hfloat "-s" "much"); [now left | reflexivity | reflexivity].
  - apply (Hword "loans.parquet"). reflexivity.
Defined.



